(** * Sponsorship Manager API: proposal synthesis, sponsor matching,
      relationship tracking, dashboard and outreach composer.

    Shallow embedding of [src/main.py] and [src/schemas.py].

    Conventions of the embedding:
    - Python [str] is [string]; [str.lower] acts on the ASCII letters.
    - Python [int] is [Z].  Python [float] is IEEE-754 binary64: a finite
      value is the rational it denotes, an operation is the exact
      operation followed by rounding to the nearest double, ties to even,
      and a result beyond the largest double is an infinity.  The sign of
      zero is not tracked.  Converting an [int] beyond the float range
      raises [OverflowError].
    - A MongoDB document is a finite map from field names to values, a
      collection is a list of documents.  The handle [db] is [None] when
      the database is not configured and a pymongo [Database] otherwise;
      testing the truth value of a [Database] raises
      [NotImplementedError], comparing it with [None] does not.
    - [bson.ObjectId], [datetime.utcnow] and [database.create_document]
      are inputs of the handlers that use them.
    - Handlers that write to the store return the updated store next to
      their response; raised exceptions are values of [exn]. *)

From Stdlib Require Import ZArith QArith Qround Ascii String List DecimalString Lia Lqa.
From stdpp Require Import gmap strings list sorting.

Local Open Scope Z_scope.
Local Open Scope string_scope.

(** ** Python string helpers *)

Module Py.

(** [c.lower()] on one ASCII character. *)
Definition lower_ascii (c : ascii) : ascii :=
  let n := nat_of_ascii c in
  if (andb (Nat.leb 65 n) (Nat.leb n 90)) then ascii_of_nat (n + 32) else c.

(** [s.lower()] *)
Fixpoint lower (s : string) : string :=
  match s with
  | EmptyString => EmptyString
  | String c r => String (lower_ascii c) (lower r)
  end.

(** [sub in s] for strings: [sub] occurs as a contiguous block of [s]. *)
Fixpoint contains (sub s : string) : bool :=
  if String.prefix sub s then true
  else match s with
       | EmptyString => false
       | String _ r => contains sub r
       end.

(** [s.replace(' ', '')] *)
Fixpoint remove_spaces (s : string) : string :=
  match s with
  | EmptyString => EmptyString
  | String c r => if Ascii.eqb c " " then remove_spaces r else String c (remove_spaces r)
  end.

(** [sep.join(l)] *)
Fixpoint join (sep : string) (l : list string) : string :=
  match l with
  | [] => ""
  | [x] => x
  | x :: r => x ++ sep ++ join sep r
  end.

(** Insert a comma after every third digit of a least-significant-first
    digit list, as long as digits remain. *)
Fixpoint group3 (l : list ascii) : list ascii :=
  match l with
  | a :: b :: c :: ((_ :: _) as r) => a :: b :: c :: ","%char :: group3 r
  | _ => l
  end.

Definition digits (n : Z) : string := NilEmpty.string_of_uint (N.to_uint (Z.to_N (Z.abs n))).

(** [f"{n:,}"] for an [int]. *)
Definition fmt_thousands (n : Z) : string :=
  let body := string_of_list_ascii (rev (group3 (rev (list_ascii_of_string (digits n))))) in
  if (n <? 0)%Z then "-" ++ body else body.

(** [x or d] on an optional integer: [None] and [0] are falsy. *)
Definition int_or (x : option Z) (d : Z) : Z :=
  match x with
  | Some n => if (n =? 0)%Z then d else n
  | None => d
  end.

(** Truthiness of an optional integer. *)
Definition int_truthy (x : option Z) : bool :=
  match x with
  | Some n => negb (n =? 0)%Z
  | None => false
  end.

(** [x or d] on an optional string: [None] and [""] are falsy. *)
Definition str_or (x : option string) (d : string) : string :=
  match x with
  | Some EmptyString => d
  | Some s => s
  | None => d
  end.

(** [x or []] and truthiness on an optional list. *)
Definition list_or {A} (x : option (list A)) (d : list A) : list A :=
  match x with
  | Some (_ :: _ as l) => l
  | _ => d
  end.

Definition list_truthy {A} (x : option (list A)) : bool :=
  match x with
  | Some (_ :: _) => true
  | _ => false
  end.

(** Nearest integer, ties to the even one. *)
Definition round_half_even (q : Q) : Z :=
  let n := Qnum q in
  let d := Z.pos (Qden q) in
  let f := n / d in
  match 2 * (n mod d) ?= d with
  | Lt => f
  | Gt => f + 1
  | Eq => if Z.even f then f else f + 1
  end.

(** [l[:k]] for an arbitrary integer [k]: a negative [k] counts from the end. *)
Definition slice_to {A} (l : list A) (k : Z) : list A :=
  if (k <? 0)%Z then take (Z.to_nat (Z.of_nat (length l) + k)) l
  else take (Z.to_nat k) l.

End Py.

(** ** Exceptions *)

(** Exceptions that leave a handler. *)
Inductive exn :=
  | HTTPException (status_code : Z) (detail : string)
  | TypeError
  | Exception (msg : string)
  | OverflowError
  | NotImplementedError.

Inductive result (A : Type) :=
  | Return (a : A)
  | Raise (e : exn).
Arguments Return {A} a.
Arguments Raise {A} e.

Definition bind {A B} (r : result A) (k : A -> result B) : result B :=
  match r with
  | Return a => k a
  | Raise e => Raise e
  end.

Notation "'let*' x ':=' r 'in' k" := (bind r (fun x => k))
  (at level 10, x name, r at level 100, k at level 200).

(** ** Binary64 floats *)

Module F64.

Inductive float :=
  | Finite (q : Q)
  | Infinity (negative : bool)
  | NaN.

(** Every finite double is a whole number of units of [2^-1074], of the
    form [m * 2^e] with [m <= 2^53]; [2^1024] is [2^2098] units. *)
Definition units : Z := 2 ^ 1074.
Definition overflow_at : Z := 2 ^ 2098.

(** The double nearest to a rational, ties to the even mantissa. *)
Definition nearest (q : Q) : float :=
  let negative := (Qnum q <? 0)%Z in
  let a := Z.abs (Qnum q) * units in
  let f := a / Z.pos (Qden q) in
  let shift := if (f <? 2 ^ 53)%Z then 0 else Z.log2 f - 52 in
  let m := Py.round_half_even (Qmake a (Qden q * Z.to_pos (2 ^ shift))) in
  let v := m * 2 ^ shift in
  if (overflow_at <=? v)%Z then Infinity negative
  else Finite (Qred (Qmake (if negative then - v else v) (Z.to_pos units))).

(** [x * y] *)
Definition mul (x y : float) : float :=
  match x, y with
  | Finite a, Finite b => nearest (a * b)
  | Infinity s, Finite b | Finite b, Infinity s =>
      match Qcompare b 0 with
      | Eq => NaN
      | Lt => Infinity (negb s)
      | Gt => Infinity s
      end
  | Infinity s, Infinity t => Infinity (xorb s t)
  | NaN, _ | _, NaN => NaN
  end.

(** [x > a] for a float [x] and an int [a]: the comparison is exact. *)
Definition gt_int (x : float) (a : Z) : bool :=
  match x with
  | Finite q => match Qcompare (inject_Z a) q with Lt => true | _ => false end
  | Infinity negative => negb negative
  | NaN => false
  end.

(** [round(x, 2)]: the decimal rounding of the exact value, ties to
    even, converted back to the nearest double. *)
Definition round2 (x : float) : result float :=
  match x with
  | Finite q =>
      match nearest (Qmake (Py.round_half_even (q * 100)) 100) with
      | Finite r => Return (Finite r)
      | _ => Raise OverflowError
      end
  | _ => Return x
  end.

(** [float(z)] *)
Definition of_int (z : Z) : result float :=
  match nearest (inject_Z z) with
  | Finite q => Return (Finite q)
  | _ => Raise OverflowError
  end.

(** The strict order of floats. *)
Definition lt (x y : float) : Prop :=
  match x, y with
  | Finite a, Finite b => (a < b)%Q
  | Finite _, Infinity negative => negative = false
  | Infinity negative, Finite _ => negative = true
  | Infinity s, Infinity t => s = true /\ t = false
  | NaN, _ | _, NaN => False
  end.

(** The double that a representable rational denotes. *)
Definition exact (q : Q) : float := Finite (Qred q).

End F64.

(** ** Python numbers *)

Inductive num :=
  | Int (z : Z)
  | Float (f : F64.float).

Module Num.

(** [z * f] for an int [z] and a float [f] *)
Definition int_mul_float (z : Z) (f : F64.float) : result F64.float :=
  let* x := F64.of_int z in
  Return (F64.mul x f).

(** [max(a, x)] for an int [a] and a float [x]: the first argument
    unless the second is strictly larger. *)
Definition max_int_float (a : Z) (x : F64.float) : num :=
  if F64.gt_int x a then Float x else Int a.

(** [round(x, 2)] *)
Definition round2 (x : num) : result num :=
  match x with
  | Int z => Return (Int z)
  | Float f => let* r := F64.round2 f in Return (Float r)
  end.

(** [x * k] for an int [k] *)
Definition mul_int (x : num) (k : Z) : result num :=
  match x with
  | Int z => Return (Int (z * k))
  | Float f => let* g := F64.of_int k in Return (Float (F64.mul f g))
  end.

(** [x * f] for a float [f] *)
Definition mul_float (x : num) (f : F64.float) : result num :=
  match x with
  | Int z => let* g := F64.of_int z in Return (Float (F64.mul g f))
  | Float g => Return (Float (F64.mul g f))
  end.

(** The value a pydantic [float] field takes from a number. *)
Definition as_float (x : num) : result F64.float :=
  match x with
  | Int z => F64.of_int z
  | Float f => Return f
  end.

End Num.

(** ** Schemas ([src/schemas.py]) *)

Record ProposalInput := {
  pi_title : string;
  pi_description : string;
  pi_date : option string;
  pi_location : option string;
  audience_size : option Z;
  demographics : option string;
  engagement_channels : option (list string);
  objectives : option (list string);
  industries_target : option (list string)
}.

Record BenefitTier := {
  tier_name : string;
  price : F64.float;
  benefits : list string
}.

Record Proposal := {
  p_title : string;
  p_description : string;
  p_date : option string;
  p_location : option string;
  audience_summary : string;
  value_proposition : list string;
  tiers : list BenefitTier;
  p_objectives : list string
}.

(** ** Utility generators *)

Definition synthesize_audience_summary (inp : ProposalInput) : string :=
  let size :=
    match audience_size inp with
    | Some n => if Py.int_truthy (Some n)
                then "~" ++ Py.fmt_thousands n ++ " attendees"
                else "audience aligned to your niche"
    | None => "audience aligned to your niche"
    end in
  let demo := Py.str_or (demographics inp) "Mixed age groups with strong local presence" in
  let channels :=
    match engagement_channels inp with
    | Some l => if Py.list_truthy (Some l)
                then Py.join ", " l
                else "email, social, on-site activations"
    | None => "email, social, on-site activations"
    end in
  "Projected reach " ++ size ++ ". Demographics: " ++ demo ++ ". Engagement via " ++ channels ++ ".".

Definition base_price (inp : ProposalInput) : result num :=
  let* x := Num.int_mul_float (Py.int_or (audience_size inp) 500) (F64.Finite (1 # 2)) in
  Return (Num.max_int_float 500 x).

Definition default_tiers (inp : ProposalInput) : result (list BenefitTier) :=
  let* base_price := base_price inp in
  let* bronze := (let* r := Num.round2 base_price in Num.as_float r) in
  let* silver := (let* p := Num.mul_int base_price 2 in
                  let* r := Num.round2 p in Num.as_float r) in
  let* gold := (let* p := Num.mul_float base_price (F64.Finite (7 # 2)) in
                let* r := Num.round2 p in Num.as_float r) in
  Return
    [ {| tier_name := "Bronze"; price := bronze;
         benefits := ["Logo on website"; "Social media mention"; "2 event passes"] |};
      {| tier_name := "Silver"; price := silver;
         benefits := ["Medium logo placement"; "2 dedicated social posts"; "4 event passes";
                      "Booth space"] |};
      {| tier_name := "Gold"; price := gold;
         benefits := ["Prime logo placement"; "Newsletter feature"; "Stage shoutout";
                      "6 event passes"; "Lead capture access"] |} ].

Definition value_points (inp : ProposalInput) : list string :=
  [ "Direct access to target local audiences";
    "Brand visibility across digital and on-site touchpoints";
    "Measurable engagement and post-event reporting";
    "Long-term partnership opportunities" ].

(** The [Proposal(...)] value built by [generate_proposal] and by
    [export_proposal_pdf]. *)
Definition build_proposal (inp : ProposalInput) : result Proposal :=
  let summary := synthesize_audience_summary inp in
  let points := value_points inp in
  let* tiers := default_tiers inp in
  Return {| p_title := pi_title inp;
            p_description := pi_description inp;
            p_date := pi_date inp;
            p_location := pi_location inp;
            audience_summary := summary;
            value_proposition := points;
            tiers := tiers;
            p_objectives := Py.list_or (objectives inp) [] |}.

(** ** Sponsor schema and request schemas *)

Inductive Status := New | Contacted | InDiscussion | Pending | Confirmed | Declined.

Definition status_str (s : Status) : string :=
  match s with
  | New => "new"
  | Contacted => "contacted"
  | InDiscussion => "in_discussion"
  | Pending => "pending"
  | Confirmed => "confirmed"
  | Declined => "declined"
  end.

Record Sponsor := {
  s_name : string;
  s_industry : string;
  s_location : string;
  s_email : option string;
  s_phone : option string;
  s_website : option string;
  s_status : Status;
  s_proposal_id : option string;
  s_notes : option string;
  s_next_follow_up : option string
}.

Record FindSponsorsRequest := {
  fs_location : string;
  fs_industries : list string;
  fs_limit : Z
}.

Inductive Tone := Professional | Friendly | Concise.

Record GenerateEmailRequest := {
  ge_sponsor_id : string;
  ge_proposal_id : option string;
  ge_tone : Tone
}.

Record UpdateStatusRequest := {
  us_sponsor_id : string;
  us_status : Status
}.

Record AddNoteRequest := {
  an_sponsor_id : string;
  an_note : string
}.

(** ** Local sponsor finder *)

Record Business := {
  b_name : string;
  b_industry : string;
  b_website : string
}.

Definition SEED_BUSINESSES : list Business :=
  [ {| b_name := "City Fitness"; b_industry := "Health & Wellness"; b_website := "https://cityfitness.example" |};
    {| b_name := "Brewed Awakenings"; b_industry := "Food & Beverage"; b_website := "https://brew.example" |};
    {| b_name := "Green Wheels Bikes"; b_industry := "Retail"; b_website := "https://greenwheels.example" |};
    {| b_name := "Tech Hub Co-Work"; b_industry := "Technology"; b_website := "https://techhub.example" |};
    {| b_name := "River Bank Credit"; b_industry := "Finance"; b_website := "https://riverbank.example" |} ].

(** The [Sponsor(...)] value appended for a matching business. *)
Definition candidate (req : FindSponsorsRequest) (b : Business) : Sponsor :=
  {| s_name := b_name b;
     s_industry := b_industry b;
     s_location := fs_location req;
     s_email := Some ("info@" ++ Py.lower (Py.remove_spaces (b_name b)) ++ ".com");
     s_phone := Some "(555) 123-4567";
     s_website := Some (b_website b);
     s_status := New;
     s_proposal_id := None;
     s_notes := None;
     s_next_follow_up := None |}.

(** The condition of the loop body:
    [not req.industries or any(i.lower() in b["industry"].lower() ...)]. *)
Definition industry_hit (req : FindSponsorsRequest) (b : Business) : bool :=
  negb (Py.list_truthy (Some (fs_industries req)))
  || existsb (fun i => Py.contains (Py.lower i) (Py.lower (b_industry b))) (fs_industries req).

Definition find_sponsors (req : FindSponsorsRequest) : list Sponsor :=
  let matches :=
    fold_left (fun matches b =>
                 if industry_hit req b then (matches ++ [candidate req b])%list else matches)
              SEED_BUSINESSES [] in
  Py.slice_to matches (fs_limit req).

(** ** Document store *)

(** Field values of stored documents. *)
Inductive value :=
  | VNull
  | VStr (s : string)
  | VOid (o : string)
  | VTime (t : Z).

Global Instance value_eq_dec : EqDecision value.
Proof. solve_decision. Defined.

(** A document is a dictionary from field names to values. *)
Abbreviation doc := (gmap string value).

(** The collections the handlers name.  Proposal snapshots are only ever
    written, so they are kept as the dumped [Proposal] next to its id. *)
Record Store := {
  proposal : list (string * Proposal);
  sponsor : list doc;
  interaction : list doc;
  followup : list doc
}.

Definition with_sponsor (st : Store) (c : list doc) : Store :=
  {| proposal := proposal st; sponsor := c; interaction := interaction st; followup := followup st |}.

Module Mongo.

(** The filter [{key: v}]. *)
Definition eq_filter (key : string) (v : value) (d : doc) : bool :=
  bool_decide (d !! key = Some v).

(** [collection.find_one(filter)] *)
Definition find_one (filt : doc -> bool) (c : list doc) : option doc := List.find filt c.

(** [collection.update_one(filter, {"$set": ...})]: the first document
    that matches is updated, nothing is inserted when none does. *)
Fixpoint update_one (filt : doc -> bool) (upd : doc -> doc) (c : list doc) : list doc :=
  match c with
  | [] => []
  | d :: r => if filt d then upd d :: r else d :: update_one filt upd r
  end.

(** [collection.count_documents(filter)] *)
Definition count_documents (filt : doc -> bool) (c : list doc) : nat :=
  length (List.filter filt c).

(** Comparison order of field values in a sort: a missing field counts
    as null, null sorts before strings, strings before object ids, object
    ids before dates. *)
Definition rank (v : option value) : nat :=
  match v with
  | None | Some VNull => 0
  | Some (VStr _) => 1
  | Some (VOid _) => 2
  | Some (VTime _) => 3
  end.

Definition value_le (a b : option value) : Prop :=
  match a, b with
  | Some (VStr s), Some (VStr t) => String.le s t
  | Some (VOid s), Some (VOid t) => String.le s t
  | Some (VTime s), Some (VTime t) => (s <= t)%Z
  | _, _ => (rank a <= rank b)%nat
  end.

(** Ascending order of documents on one field. *)
Definition field_le (key : string) (d1 d2 : doc) : Prop :=
  value_le (d1 !! key) (d2 !! key).

Global Instance value_le_dec : RelDecision value_le.
Proof.
  intros [[| s | s | s] |] [[| t | t | t] |]; simpl; apply _.
Defined.

Global Instance field_le_dec key : RelDecision (field_le key).
Proof. intros d1 d2. unfold field_le. apply _. Defined.

(** [cursor.sort(key, 1)] *)
Definition sort_asc (key : string) (c : list doc) : list doc :=
  merge_sort (field_le key) c.

(** [cursor.limit(n)] *)
Definition limit (n : nat) (c : list doc) : list doc := take n c.

End Mongo.

(** ** Tracking, dashboard and outreach handlers *)

Record OkResponse := { ok : bool }.

Record EmailResponse := { subject : string; body : string }.

Record Overview := {
  counts : gmap string nat;
  upcoming_followups : list doc
}.

Definition statuses : list string :=
  ["new"; "contacted"; "in_discussion"; "pending"; "confirmed"; "declined"].

(** Truthiness of the optional document returned by [find_one]. *)
Definition doc_truthy (sponsor : option doc) : bool :=
  match sponsor with
  | Some d => negb (bool_decide (d = ∅))
  | None => false
  end.

(** [d.get(key)]: [None] is rendered as the null value. *)
Definition dict_get (d : doc) (key : string) : value := default VNull (d !! key).

(** The subject and body templates of [generate_outreach_email], for a
    company name and an industry that are strings. *)
Definition email_subject (company : string) : string :=
  "Sponsorship Opportunity: " ++ company ++ " x Our Event".

Definition newline : string := String (ascii_of_nat 10) EmptyString.

Definition email_body (company industry : string) : string :=
  "Hello "
  ++ (if negb (String.eqb company "Partner") then company else "there")
  ++ "," ++ newline ++ newline
  ++ "I'm reaching out to explore a potential sponsorship partnership. Based on your focus in "
  ++ industry
  ++ ", we believe there's strong alignment with our audience." ++ newline ++ newline
  ++ "Happy to send a tailored proposal and discuss options (Bronze, Silver, Gold) suited to your goals."
  ++ newline ++ newline
  ++ "Best regards," ++ newline ++ "Your Name".

(** [bool(db)], as [if db] and [db and ...] evaluate it: [None] is false,
    and a pymongo [Database] raises, its [__bool__] refusing truth-value
    testing. *)
Definition db_bool (db : option Store) : result bool :=
  match db with
  | None => Return false
  | Some _ => Raise NotImplementedError
  end.

(** [db[name]]: subscripting [None] raises. *)
Definition db_get {A} (db : option Store) (collection : Store -> A) : result A :=
  match db with
  | Some st => Return (collection st)
  | None => Raise TypeError
  end.

Section Handlers.

(** [bson.ObjectId(s)]: the parsed identifier, [None] when the
    constructor raises.  The identifier is kept as its canonical string,
    which is also what [str(oid)] returns. *)
Variable ObjectId : string -> option string.

(** [str(datetime)] *)
Variable str_datetime : Z -> string.

(** [database.create_document], which is not part of the sources at hand:
    from the handle, the collection name and the dumped proposal to either
    an exception or the updated handle and the new identifier. *)
Variable create_document :
  option Store -> string -> Proposal -> result (option Store * string).

Definition py_str (v : value) : string :=
  match v with
  | VNull => "None"
  | VStr s => s
  | VOid o => o
  | VTime t => str_datetime t
  end.

Definition generate_proposal (db : option Store) (inp : ProposalInput)
  : result (option Store * Proposal) :=
  let* proposal := build_proposal inp in
  let* created := create_document db "proposal" proposal in
  Return (fst created, proposal).

Definition update_status (db : option Store) (now : Z) (req : UpdateStatusRequest)
  : result (option Store * OkResponse) :=
  match db with
  | None => Raise (HTTPException 500 "Database not configured")
  | Some st =>
      match ObjectId (us_sponsor_id req) with
      | None => Raise (HTTPException 400 "Invalid sponsor id")
      | Some oid =>
          let c := Mongo.update_one (Mongo.eq_filter "_id" (VOid oid))
                     (fun d => <["updated_at" := VTime now]>
                                 (<["status" := VStr (status_str (us_status req))]> d))
                     (sponsor st) in
          Return (Some (with_sponsor st c), {| ok := true |})
      end
  end.

Definition add_note (db : option Store) (now : Z) (req : AddNoteRequest)
  : result (option Store * OkResponse) :=
  match ObjectId (an_sponsor_id req) with
  | None => Raise (HTTPException 400 "Invalid sponsor id")
  | Some oid =>
      match db with
      | None => Raise TypeError
      | Some st =>
          let c := Mongo.update_one (Mongo.eq_filter "_id" (VOid oid))
                     (fun d => <["updated_at" := VTime now]> (<["notes" := VStr (an_note req)]> d))
                     (sponsor st) in
          Return (Some (with_sponsor st c), {| ok := true |})
      end
  end.

(** The loop [u["_id"] = str(u["_id"]) if "_id" in u else None]. *)
Definition stringify_id (u : doc) : doc :=
  match u !! "_id" with
  | Some v => <["_id" := VStr (py_str v)]> u
  | None => <["_id" := VNull]> u
  end.

Definition dashboard_overview (db : option Store) : result Overview :=
  let* overview :=
    fold_left (fun acc s =>
                 let* overview := acc in
                 let* configured := db_bool db in
                 let* n := (if configured
                            then let* c := db_get db sponsor in
                                 Return (Mongo.count_documents
                                           (Mongo.eq_filter "status" (VStr s)) c)
                            else Return 0%nat) in
                 Return (<[s := n]> overview))
              statuses (Return (∅ : gmap string nat)) in
  let* configured := db_bool db in
  let* upcoming := (if configured
                    then let* c := db_get db followup in
                         Return (Mongo.limit 5 (Mongo.sort_asc "due_date" c))
                    else Return []) in
  Return {| counts := overview; upcoming_followups := map stringify_id upcoming |}.

Definition generate_outreach_email (db : option Store) (req : GenerateEmailRequest)
  : result EmailResponse :=
  let* configured := db_bool db in
  let sponsor :=
    if configured && negb (String.eqb (ge_sponsor_id req) "")
    then match db, ObjectId (ge_sponsor_id req) with
         | Some st, Some oid => Mongo.find_one (Mongo.eq_filter "_id" (VOid oid)) (sponsor st)
         | _, _ => None
         end
    else None in
  match sponsor with
  | Some d =>
      if doc_truthy (Some d)
      then match dict_get d "name", dict_get d "industry" with
           | VStr company, VStr industry =>
               Return {| subject := email_subject company; body := email_body company industry |}
           | _, _ => Raise TypeError
           end
      else Return {| subject := email_subject "Partner"; body := email_body "Partner" "your industry" |}
  | None => Return {| subject := email_subject "Partner"; body := email_body "Partner" "your industry" |}
  end.

End Handlers.

(** * Specification-side definitions and sample data *)

(** The audience size that enters the price: [audience_size or 500]. *)
Definition priced_audience (inp : ProposalInput) : Z := Py.int_or (audience_size inp) 500.

(** The prices of the three tiers, in list order. *)
Definition tier_prices (inp : ProposalInput) : result (list F64.float) :=
  let* tiers := default_tiers inp in
  Return (map price tiers).

(** The three prices obtained from a base by the tier formula:
    [round(base, 2)], [round(base * 2, 2)] and [round(base * 3.5, 2)],
    each stored as a float. *)
Definition prices_from (base : num) : result (list F64.float) :=
  let* bronze := (let* r := Num.round2 base in Num.as_float r) in
  let* silver := (let* p := Num.mul_int base 2 in
                  let* r := Num.round2 p in Num.as_float r) in
  let* gold := (let* p := Num.mul_float base (F64.Finite (7 # 2)) in
                let* r := Num.round2 p in Num.as_float r) in
  Return [bronze; silver; gold].

(** [max(500, n * 0.5)] *)
Definition max_500_half (n : Z) : result num :=
  let* x := Num.int_mul_float n (F64.Finite (1 # 2)) in
  Return (Num.max_int_float 500 x).

(** The base as the specification words it: 250 when no audience size is given. *)
Definition spec_base (a : option Z) : result num :=
  match a with
  | Some n => max_500_half n
  | None => Return (Float (F64.Finite 250))
  end.

(** The base the code computes: the floor 500 when no audience size is given. *)
Definition floor_base (a : option Z) : result num :=
  match a with
  | Some n => max_500_half n
  | None => Return (Int 500)
  end.

(** The three prices as real numbers, for the doubled base [m]:
    [m / 2], [m] and [3.5 * m / 2]. *)
Definition exact_prices (m : Z) : list F64.float :=
  [F64.exact (m # 2); F64.exact (inject_Z m); F64.exact (7 * m # 4)].

(** A number that a double holds: [v] units of [2^-1074] with [v] of the
    form [m * 2^s], [m] of at most 53 bits, below the overflow threshold. *)
Definition representable (q : Q) : Prop :=
  exists v m s : Z,
    (q == v # Z.to_pos F64.units)%Q
    /\ Z.abs v = m * 2 ^ s /\ 0 <= m <= 2 ^ 53 /\ 0 <= s /\ Z.abs v < F64.overflow_at.

Definition set_audience_size (inp : ProposalInput) (a : option Z) : ProposalInput :=
  {| pi_title := pi_title inp; pi_description := pi_description inp; pi_date := pi_date inp;
     pi_location := pi_location inp; audience_size := a; demographics := demographics inp;
     engagement_channels := engagement_channels inp; objectives := objectives inp;
     industries_target := industries_target inp |}.

Definition sample_input (a : option Z) : ProposalInput :=
  {| pi_title := "Fair"; pi_description := "City fair"; pi_date := None; pi_location := None;
     audience_size := a; demographics := None; engagement_channels := None;
     objectives := None; industries_target := None |}.

(** Any character but the comma. *)
Definition no_comma (c : ascii) : bool := negb (Ascii.eqb c ",").

(** The fixed phrases of the audience summary. *)
Definition generic_reach : string := "audience aligned to your niche".
Definition default_demographics : string := "Mixed age groups with strong local presence".
Definition default_channels : string := "email, social, on-site activations".

(** The reach phrase as the specification words it: the attendee count
    whenever an audience size is present. *)
Definition spec_reach (a : option Z) : string :=
  match a with
  | Some n => "~" ++ Py.fmt_thousands n ++ " attendees"
  | None => generic_reach
  end.

Definition spec_summary (inp : ProposalInput) : string :=
  "Projected reach " ++ spec_reach (audience_size inp)
  ++ ". Demographics: " ++ Py.str_or (demographics inp) default_demographics
  ++ ". Engagement via "
  ++ (if Py.list_truthy (engagement_channels inp)
      then Py.join ", " (Py.list_or (engagement_channels inp) [])
      else default_channels)
  ++ ".".

(** The matching rule in words: no industry was requested, or some
    requested industry occurs, letter case aside, inside the industry of
    the business. *)
Definition industry_match (industries : list string) (b : Business) : Prop :=
  industries = []
  \/ exists i, In i industries
       /\ exists pre post, Py.lower (b_industry b) = pre ++ Py.lower i ++ post.

(** The candidates before truncation. *)
Definition all_matches (req : FindSponsorsRequest) : list Sponsor :=
  map (candidate req) (List.filter (industry_hit req) SEED_BUSINESSES).

(** The sponsor listed for a business, field by field. *)
Definition listing (location name industry email website : string) : Sponsor :=
  {| s_name := name;
     s_industry := industry;
     s_location := location;
     s_email := Some email;
     s_phone := Some "(555) 123-4567";
     s_website := Some website;
     s_status := New;
     s_proposal_id := None;
     s_notes := None;
     s_next_follow_up := None |}.

(** The five sponsors of the seed catalog, in catalog order. *)
Definition catalog_listing (location : string) : list Sponsor :=
  [ listing location "City Fitness" "Health & Wellness"
      "info@cityfitness.com" "https://cityfitness.example";
    listing location "Brewed Awakenings" "Food & Beverage"
      "info@brewedawakenings.com" "https://brew.example";
    listing location "Green Wheels Bikes" "Retail"
      "info@greenwheelsbikes.com" "https://greenwheels.example";
    listing location "Tech Hub Co-Work" "Technology"
      "info@techhubco-work.com" "https://techhub.example";
    listing location "River Bank Credit" "Finance"
      "info@riverbankcredit.com" "https://riverbank.example" ].

Definition river_bank_credit : Business :=
  {| b_name := "River Bank Credit"; b_industry := "Finance"; b_website := "https://riverbank.example" |}.

(** A sample identifier parser for concrete runs: it accepts exactly
    the strings of 24 hexadecimal digits. *)
Definition is_hex (c : ascii) : bool :=
  let n := nat_of_ascii c in
  (Nat.leb 48 n && Nat.leb n 57) || (Nat.leb 97 n && Nat.leb n 102) || (Nat.leb 65 n && Nat.leb n 70).

Definition hex24 (s : string) : option string :=
  if Nat.eqb (String.length s) 24 && forallb is_hex (list_ascii_of_string s)
  then Some (Py.lower s)
  else None.

Definition sample_sponsor (oid name industry : string) : doc :=
  <["_id" := VOid oid]> (<["name" := VStr name]> (<["industry" := VStr industry]>
    (<["location" := VStr "Springfield"]> (<["status" := VStr "new"]> (<["notes" := VNull]> ∅))))).

Definition empty_store : Store :=
  {| proposal := []; sponsor := []; interaction := []; followup := [] |}.

Definition sample_store : Store :=
  {| proposal := [];
     sponsor := [ sample_sponsor "aaaaaaaaaaaaaaaaaaaaaaaa" "City Fitness" "Health & Wellness";
                  sample_sponsor "bbbbbbbbbbbbbbbbbbbbbbbb" "River Bank Credit" "Finance" ];
     interaction := [];
     followup := [] |}.

(** The filter [{"_id": oid}]. *)
Definition by_id (oid : string) : doc -> bool := Mongo.eq_filter "_id" (VOid oid).

(** The two [$set] updates. *)
Definition set_status (now : Z) (s : Status) (d : doc) : doc :=
  <["updated_at" := VTime now]> (<["status" := VStr (status_str s)]> d).

Definition set_note (now : Z) (note : string) (d : doc) : doc :=
  <["updated_at" := VTime now]> (<["notes" := VStr note]> d).

(** The fields of a sponsor document other than the note and the timestamp. *)
Definition other_sponsor_fields : list string :=
  ["_id"; "name"; "industry"; "location"; "status"; "email"; "phone"; "website";
   "proposal_id"; "next_follow_up"].

(** Sample follow-up documents, out of due-date order in the store. *)
Definition sample_followup (oid sid due : string) : doc :=
  <["_id" := VOid oid]> (<["sponsor_id" := VStr sid]> (<["due_date" := VStr due]>
    (<["note" := VNull]> ∅))).

Definition followup_store : Store :=
  {| proposal := [];
     sponsor := sponsor sample_store;
     interaction := [];
     followup := [ sample_followup "111111111111111111111111" "a" "2025-03-01";
                   sample_followup "222222222222222222222222" "b" "2025-01-15";
                   sample_followup "333333333333333333333333" "a" "2025-02-10" ] |}.

(** The reply composed when no sponsor record is at hand. *)
Definition fallback_email : EmailResponse :=
  {| subject := "Sponsorship Opportunity: Partner x Our Event";
     body := "Hello there," ++ newline ++ newline
             ++ "I'm reaching out to explore a potential sponsorship partnership. "
             ++ "Based on your focus in your industry, "
             ++ "we believe there's strong alignment with our audience." ++ newline ++ newline
             ++ "Happy to send a tailored proposal and discuss options (Bronze, Silver, Gold) "
             ++ "suited to your goals." ++ newline ++ newline
             ++ "Best regards," ++ newline ++ "Your Name" |}.

Definition set_tone (req : GenerateEmailRequest) (t : Tone) : GenerateEmailRequest :=
  {| ge_sponsor_id := ge_sponsor_id req; ge_proposal_id := ge_proposal_id req; ge_tone := t |}.

(** A sample persistence function for concrete runs: it refuses to work
    without a store and otherwise appends the snapshot to the proposal
    collection under a fresh identifier. *)
Definition sample_create_document (db : option Store) (collection : string) (p : Proposal)
  : result (option Store * string) :=
  match db with
  | None => Raise (Exception "Database not available")
  | Some st =>
      if String.eqb collection "proposal"
      then let id := Py.digits (Z.of_nat (length (proposal st))) in
           Return (Some {| proposal := (proposal st ++ [(id, p)])%list; sponsor := sponsor st;
                           interaction := interaction st; followup := followup st |}, id)
      else Raise (Exception "Unknown collection")
  end.

(** The proposal for the sample input with 2000 attendees. *)
Definition sample_proposal : Proposal :=
  {| p_title := "Fair";
     p_description := "City fair";
     p_date := None;
     p_location := None;
     audience_summary :=
       "Projected reach ~2,000 attendees. Demographics: Mixed age groups with strong local presence. Engagement via email, social, on-site activations.";
     value_proposition :=
       ["Direct access to target local audiences";
        "Brand visibility across digital and on-site touchpoints";
        "Measurable engagement and post-event reporting";
        "Long-term partnership opportunities"];
     tiers :=
       [ {| tier_name := "Bronze"; price := F64.Finite 1000;
            benefits := ["Logo on website"; "Social media mention"; "2 event passes"] |};
         {| tier_name := "Silver"; price := F64.Finite 2000;
            benefits := ["Medium logo placement"; "2 dedicated social posts"; "4 event passes";
                         "Booth space"] |};
         {| tier_name := "Gold"; price := F64.Finite 3500;
            benefits := ["Prime logo placement"; "Newsletter feature"; "Stage shoutout";
                         "6 event passes"; "Lead capture access"] |} ];
     p_objectives := [] |}.

(** The store after one and after two snapshots of the same proposal. *)
Definition store_after (n : nat) (p : Proposal) : option Store :=
  Some {| proposal := match n with
                      | 0%nat => []
                      | 1%nat => [("0", p)]
                      | _ => [("0", p); ("1", p)]
                      end;
          sponsor := []; interaction := []; followup := [] |}.

(** An upper-case ASCII letter. *)
Definition is_upper (c : ascii) : bool :=
  let n := nat_of_ascii c in
  Nat.leb 65 n && Nat.leb n 90.

(** Two documents agree outside the given fields. *)
Definition same_outside (fields : list string) (d d' : doc) : Prop :=
  forall k : string, ~ In k fields -> d' !! k = d !! k.

(** * Properties *)

(** ** Rounding to the nearest integer and to the nearest double *)

Local Open Scope Z_scope.

Lemma pow2_pos (e : Z) : 0 <= e -> 0 < 2 ^ e.
Proof. intros H. apply Z.pow_pos_nonneg; lia. Qed.

Lemma round_half_even_exact (q : Q) (k : Z) :
  (q == inject_Z k)%Q -> Py.round_half_even q = k.
Proof.
  destruct q as [n d]. unfold Qeq, Py.round_half_even. simpl. intros H.
  replace n with (k * Z.pos d)%Z by lia.
  rewrite Z.div_mul, Z.mod_mul by lia.
  simpl. reflexivity.
Qed.

(** The nearest integer is at most one half away. *)
Lemma round_half_even_bounds (n : Z) (d : positive) :
  - Z.pos d <= 2 * n - 2 * Py.round_half_even (n # d) * Z.pos d <= Z.pos d.
Proof.
  unfold Py.round_half_even. cbn [Qnum Qden].
  pose proof (Z.div_mod n (Z.pos d) ltac:(lia)) as E.
  pose proof (Z.mod_pos_bound n (Z.pos d) ltac:(lia)) as B.
  set (f := n / Z.pos d) in *. set (r := n mod Z.pos d) in *.
  destruct (Z.compare_spec (2 * r) (Z.pos d)) as [H | H | H];
    [destruct (Z.even f) | |]; nia.
Qed.

(** What [F64.nearest] computes: a mantissa [m] of at most 53 bits and a
    shift [s] with [m * 2^s] units at most half a step [2^s] away from
    the argument; the step is one unit, or at most [2^-52] of the
    argument. *)
Lemma nearest_cases (q : Q) :
  exists m s : Z,
    0 <= s /\ 0 <= m <= 2 ^ 53
    /\ - (Z.pos (Qden q) * 2 ^ s)
       <= 2 * (Z.abs (Qnum q) * F64.units) - 2 * (m * 2 ^ s) * Z.pos (Qden q)
       <= Z.pos (Qden q) * 2 ^ s
    /\ (s = 0 \/ 2 ^ (s + 52) * Z.pos (Qden q) <= Z.abs (Qnum q) * F64.units)
    /\ F64.nearest q
       = if (F64.overflow_at <=? m * 2 ^ s)%Z then F64.Infinity (Qnum q <? 0)%Z
         else F64.Finite (Qred ((if (Qnum q <? 0)%Z then - (m * 2 ^ s) else m * 2 ^ s)
                                # Z.to_pos F64.units)).
Proof.
  unfold F64.nearest.
  set (D := Qden q). set (a := Z.abs (Qnum q) * F64.units).
  assert (Ha : 0 <= a).
  { unfold a, F64.units. pose proof (pow2_pos 1074 ltac:(lia)). nia. }
  pose proof (Z.mul_div_le a (Z.pos D) ltac:(lia)) as Hlo.
  pose proof (Z.mul_succ_div_gt a (Z.pos D) ltac:(lia)) as Hhi.
  assert (Hf0 : 0 <= a / Z.pos D) by (apply Z.div_pos; lia).
  set (f := a / Z.pos D) in *.
  pose proof (pow2_pos 53 ltac:(lia)) as H53.
  destruct (Z.ltb_spec f (2 ^ 53)) as [Hf | Hf].
  - exists (Py.round_half_even (a # D * Z.to_pos (2 ^ 0))), 0.
    change (Z.to_pos (2 ^ 0)) with 1%positive. rewrite Pos.mul_1_r.
    pose proof (round_half_even_bounds a D) as B.
    set (m := Py.round_half_even (a # D)) in *.
    change (2 ^ 0) with 1. rewrite !Z.mul_1_r.
    split; [lia |]. split; [| split; [| split; [left; reflexivity | reflexivity]]].
    + set (P := 2 ^ 53) in *. split; nia.
    + lia.
  - assert (HL : 53 <= Z.log2 f).
    { apply Z.log2_le_pow2; lia. }
    destruct (Z.log2_spec f ltac:(lia)) as [HL1 HL2].
    set (s := Z.log2 f - 52) in *.
    exists (Py.round_half_even (a # D * Z.to_pos (2 ^ s))), s.
    pose proof (pow2_pos s ltac:(lia)) as HP.
    pose proof (round_half_even_bounds a (D * Z.to_pos (2 ^ s))) as B.
    rewrite Pos2Z.inj_mul, Z2Pos.id in B by exact HP.
    set (m := Py.round_half_even (a # D * Z.to_pos (2 ^ s))) in *.
    assert (E1 : 2 ^ Z.succ (Z.log2 f) = 2 * 2 ^ 52 * 2 ^ s).
    { unfold s. rewrite <- Z.mul_assoc, <- (Z.pow_add_r 2 52) by lia.
      rewrite <- (Z.pow_succ_r 2) by lia. f_equal. lia. }
    assert (E2 : 2 ^ (s + 52) = 2 ^ Z.log2 f) by (f_equal; lia).
    assert (E3 : 2 ^ 53 = 2 * 2 ^ 52) by reflexivity.
    rewrite E1 in HL2. rewrite E2. rewrite E3 in *.
    pose proof (pow2_pos 52 ltac:(lia)) as H52.
    set (P := 2 ^ 52) in *. set (S := 2 ^ s) in *. set (d := Z.pos D) in *.
    assert (Hd : 0 < d) by (unfold d; lia).
    split; [lia |]. split; [| split; [| split; [right | reflexivity]]].
    + assert (X : 0 < d * S) by nia.
      split.
      * assert (- (d * S) <= 2 * m * (d * S)) by nia. nia.
      * assert (a < 2 * P * (d * S)) by nia.
        assert (2 * m * (d * S) < (4 * P + 1) * (d * S)) by nia.
        assert (2 * m < 4 * P + 1) by (apply (Z.mul_lt_mono_pos_r (d * S)); lia).
        lia.
    + nia.
    + nia.
Qed.

Lemma units_pos : 0 < F64.units.
Proof. apply pow2_pos. lia. Qed.

Lemma units_id : Z.pos (Z.to_pos F64.units) = F64.units.
Proof. apply Z2Pos.id, units_pos. Qed.

(** A representable number is its own nearest double. *)
Lemma nearest_representable (q : Q) :
  representable q -> F64.nearest q = F64.Finite (Qred q).
Proof.
  intros (v & m & s & Hq & Hv & Hm & Hs & Hov).
  assert (E : Qnum q * F64.units = v * Z.pos (Qden q)).
  { revert Hq. unfold Qeq. cbn [Qnum Qden]. rewrite units_id. tauto. }
  pose proof units_pos as HU.
  assert (Ea : Z.abs (Qnum q) * F64.units = Z.abs v * Z.pos (Qden q)).
  { rewrite <- (Z.abs_eq F64.units) at 1 by lia.
    rewrite <- Z.abs_mul, E, Z.abs_mul. f_equal. }
  assert (Hsign : (Qnum q <? 0) = (v <? 0)).
  { destruct (Z.ltb_spec (Qnum q) 0), (Z.ltb_spec v 0); try reflexivity; nia. }
  assert (Hfin : forall w : Z, w = (if v <? 0 then - Z.abs v else Z.abs v) ->
            Qred (w # Z.to_pos F64.units) = Qred q).
  { intros w ->. apply Qred_complete. unfold Qeq. cbn [Qnum Qden].
    rewrite units_id, E. destruct (Z.ltb_spec v 0); f_equal; lia. }
  unfold F64.nearest. rewrite Ea, Hsign, Z.div_mul by lia.
  pose proof (pow2_pos 53 ltac:(lia)) as H53.
  destruct (Z.ltb_spec (Z.abs v) (2 ^ 53)) as [Hlt | Hge].
  - rewrite (round_half_even_exact _ (Z.abs v)).
    2:{ unfold Qeq. cbn [Qnum Qden inject_Z]. change (Z.to_pos (2 ^ 0)) with 1%positive.
        rewrite Pos.mul_1_r. ring. }
    change (2 ^ 0) with 1. rewrite Z.mul_1_r.
    destruct (Z.leb_spec F64.overflow_at (Z.abs v)) as [Hx | _]; [lia |].
    f_equal. apply Hfin. reflexivity.
  - assert (Hm0 : 0 < m) by nia.
    pose proof (pow2_pos s Hs) as HS.
    assert (HL : Z.log2 (Z.abs v) = s + Z.log2 m).
    { rewrite Hv. apply Z.log2_mul_pow2; lia. }
    assert (Hl : 0 <= Z.log2 m <= 53).
    { split; [apply Z.log2_nonneg |].
      assert (Z.log2 m <= Z.log2 (2 ^ 53)) by (apply Z.log2_le_mono; lia).
      rewrite Z.log2_pow2 in H by lia. exact H. }
    assert (Ht : 0 <= Z.log2 (Z.abs v) - 52).
    { assert (53 <= Z.log2 (Z.abs v)) by (apply Z.log2_le_pow2; lia). lia. }
    set (t := Z.log2 (Z.abs v) - 52) in *.
    pose proof (pow2_pos t Ht) as HT.
    assert (Hdiv : exists m', Z.abs v = m' * 2 ^ t).
    { destruct (Z.eq_dec (Z.log2 m) 53) as [E53 | N53].
      - assert (m = 2 ^ 53).
        { destruct (Z.log2_spec m Hm0) as [L1 _]. rewrite E53 in L1. lia. }
        exists (2 ^ 52). rewrite Hv, H, <- !Z.pow_add_r by lia. f_equal. lia.
      - exists (m * 2 ^ (s - t)). rewrite Hv, <- Z.mul_assoc, <- Z.pow_add_r by lia.
        do 2 f_equal. lia. }
    destruct Hdiv as (m' & Hm').
    rewrite (round_half_even_exact _ m').
    2:{ unfold Qeq. cbn [Qnum Qden inject_Z]. rewrite Pos2Z.inj_mul, Z2Pos.id by exact HT.
        rewrite Hm'. ring. }
    rewrite <- Hm'.
    destruct (Z.leb_spec F64.overflow_at (Z.abs v)) as [Hx | _]; [lia |].
    f_equal. apply Hfin. reflexivity.
Qed.

(** What [F64.nearest] returns is representable. *)
Lemma nearest_Finite_representable (q r : Q) :
  F64.nearest q = F64.Finite r -> representable r.
Proof.
  destruct (nearest_cases q) as (m & s & Hs & Hm & _ & _ & E).
  rewrite E. clear E. pose proof (pow2_pos s Hs) as HS.
  destruct (Z.leb_spec F64.overflow_at (m * 2 ^ s)) as [| Hov]; [discriminate |].
  intros [= <-].
  exists (if Qnum q <? 0 then - (m * 2 ^ s) else m * 2 ^ s), m, s.
  split; [apply Qred_correct |].
  assert (0 <= m * 2 ^ s) by nia.
  destruct (Qnum q <? 0); (split; [lia | split; [lia | split; [lia | lia]]]).
Qed.

Lemma representable_Qeq (q q' : Q) : (q == q')%Q -> representable q -> representable q'.
Proof.
  intros E (v & m & s & Hq & H). exists v, m, s. split; [| exact H].
  rewrite <- E. exact Hq.
Qed.

(** Halving is exact away from the smallest doubles. *)
Lemma representable_half (q : Q) :
  representable q -> (1 # 2 <= q)%Q -> representable (q * (1 # 2)).
Proof.
  intros (v & m & s & Hq & Hv & Hm & Hs & Hov) Hq1.
  pose proof units_pos as HU.
  assert (E : Qnum q * F64.units = v * Z.pos (Qden q)).
  { revert Hq. unfold Qeq. cbn [Qnum Qden]. rewrite units_id. tauto. }
  assert (Hn : Z.pos (Qden q) <= 2 * Qnum q).
  { revert Hq1. unfold Qle. cbn [Qnum Qden]. lia. }
  assert (E1 : F64.units = 2 ^ 1021 * 2 ^ 53) by (unfold F64.units; rewrite <- Z.pow_add_r by lia; reflexivity).
  pose proof (pow2_pos 1021 ltac:(lia)) as H1021.
  pose proof (pow2_pos 53 ltac:(lia)) as H53.
  assert (Hv1 : 2 ^ 53 < v).
  { assert (Z.pos (Qden q) * F64.units <= 2 * v * Z.pos (Qden q)) by nia.
    assert (F64.units <= 2 * v) by nia.
    assert (4 <= 2 ^ 1021) by (change 4 with (2 ^ 2); apply Z.pow_le_mono_r; lia).
    nia. }
  assert (Hs1 : 1 <= s).
  { destruct (Z.eq_dec s 0) as [-> |]; [| lia]. change (2 ^ 0) with 1 in Hv. lia. }
  exists (m * 2 ^ (s - 1)), m, (s - 1).
  pose proof (pow2_pos (s - 1) ltac:(lia)) as HS.
  assert (ES : 2 ^ s = 2 * 2 ^ (s - 1)).
  { rewrite <- Z.pow_succ_r by lia. f_equal. lia. }
  assert (0 <= m * 2 ^ (s - 1)) by nia.
  split; [| split; [lia | split; [lia | split; [lia | lia]]]].
  unfold Qeq. cbn [Qnum Qden Qmult]. rewrite units_id, Pos2Z.inj_mul.
  replace v with (Z.abs v) in E by lia. rewrite Hv, ES in E. lia.
Qed.

(** The nearest double of a number from one half on is within [2^-53]
    of it, relatively. *)
Lemma nearest_error (q r : Q) :
  (1 # 2 <= q)%Q -> F64.nearest q = F64.Finite r ->
  ((r - q) * 9007199254740992 <= q /\ (q - r) * 9007199254740992 <= q)%Q.
Proof.
  intros Hq1.
  destruct (nearest_cases q) as (m & s & Hs & Hm & B & C & E).
  rewrite E. clear E. pose proof (pow2_pos s Hs) as HS.
  destruct (Z.leb_spec F64.overflow_at (m * 2 ^ s)) as [| Hov]; [discriminate |].
  intros [= <-].
  pose proof units_pos as HU.
  assert (Hn : Z.pos (Qden q) <= 2 * Qnum q).
  { revert Hq1. unfold Qle. cbn [Qnum Qden]. lia. }
  destruct (Z.ltb_spec (Qnum q) 0) as [| _]; [lia |].
  rewrite Z.abs_eq in B, C by lia.
  assert (E1 : F64.units = 2 ^ 1021 * 2 ^ 53) by (unfold F64.units; rewrite <- Z.pow_add_r by lia; reflexivity).
  pose proof (pow2_pos 1021 ltac:(lia)) as H1021.
  assert (H4 : 4 <= 2 ^ 1021) by (change 4 with (2 ^ 2); apply Z.pow_le_mono_r; lia).
  assert (E53 : 2 ^ 53 = 9007199254740992) by reflexivity.
  assert (C' : 2 ^ (s + 52) * Z.pos (Qden q) <= Qnum q * F64.units).
  { destruct C as [-> | C]; [| exact C]. exfalso.
    change (2 ^ 0) with 1 in B. rewrite E1, E53 in *. nia. }
  assert (ES : 2 ^ (s + 52) = 2 ^ s * 2 ^ 52) by (apply Z.pow_add_r; lia).
  assert (E52 : 2 ^ 52 = 4503599627370496) by reflexivity.
  rewrite ES, E52 in C'.
  set (V := m * 2 ^ s) in *. set (S := 2 ^ s) in *.
  rewrite (Qred_correct (V # Z.to_pos F64.units)).
  destruct q as [N D]. cbn [Qnum Qden] in *.
  unfold Qle. cbn [Qnum Qden Qmult Qminus Qplus Qopp].
  rewrite !Pos2Z.inj_mul, units_id.
  set (U := F64.units) in *. set (d := Z.pos D) in *.
  assert (Hd : 0 < d) by (unfold d; lia).
  split.
  - assert ((V * d - N * U) * 9007199254740992 <= N * U) by nia.
    assert ((V * d - N * U) * 9007199254740992 * d <= N * U * d) by nia.
    nia.
  - assert ((N * U - V * d) * 9007199254740992 <= N * U) by nia.
    assert ((N * U - V * d) * 9007199254740992 * d <= N * U * d) by nia.
    nia.
Qed.

Lemma nearest_not_NaN (q : Q) : F64.nearest q <> F64.NaN.
Proof.
  destruct (nearest_cases q) as (m & s & _ & _ & _ & _ & E). rewrite E.
  destruct (F64.overflow_at <=? m * 2 ^ s); discriminate.
Qed.

Lemma nearest_nonneg_Infinity (q : Q) (negative : bool) :
  (0 <= q)%Q -> F64.nearest q = F64.Infinity negative -> negative = false.
Proof.
  intros Hq. destruct (nearest_cases q) as (m & s & _ & _ & _ & _ & E). rewrite E.
  destruct (F64.overflow_at <=? m * 2 ^ s); [| discriminate].
  intros [= <-]. apply Z.ltb_ge. revert Hq. unfold Qle. cbn [Qnum Qden]. lia.
Qed.

(** The nearest double of a number that is not positive exceeds no
    integer from zero on. *)
Lemma nearest_nonpos_gt_int (q : Q) (k : Z) :
  (q <= 0)%Q -> 0 <= k -> F64.gt_int (F64.nearest q) k = false.
Proof.
  intros Hq Hk.
  assert (Hn : Qnum q <= 0) by (revert Hq; unfold Qle; cbn [Qnum Qden]; lia).
  destruct (nearest_cases q) as (m & s & Hs & Hm & B & _ & E). rewrite E. clear E.
  pose proof (pow2_pos s Hs) as HS. pose proof units_pos as HU.
  assert (HV : 0 <= m * 2 ^ s) by nia.
  assert (Hle : forall v, v <= 0 -> F64.gt_int (F64.Finite (Qred (v # Z.to_pos F64.units))) k = false).
  { intros v Hv. unfold F64.gt_int.
    destruct (Qcompare (inject_Z k) (Qred (v # Z.to_pos F64.units))) eqn:C; try reflexivity.
    exfalso. apply Qlt_alt in C. rewrite Qred_correct in C. revert C.
    unfold Qlt. cbn [Qnum Qden inject_Z]. rewrite units_id. nia. }
  destruct (Z.ltb_spec (Qnum q) 0) as [Hlt | Hge].
  - destruct (F64.overflow_at <=? m * 2 ^ s); [reflexivity | apply Hle; lia].
  - assert (E0 : Qnum q = 0) by lia. rewrite E0 in B. cbn [Z.abs Z.mul] in B.
    assert (Em : m = 0) by nia. rewrite Em in *. cbn [Z.mul].
    destruct (Z.leb_spec F64.overflow_at 0) as [Hx | _].
    + exfalso. revert Hx. apply Z.lt_nge. apply pow2_pos. lia.
    + apply Hle. lia.
Qed.

Lemma nearest_nonpos_Finite (q r : Q) :
  (q <= 0)%Q -> F64.nearest q = F64.Finite r -> (r <= 0)%Q.
Proof.
  intros Hq.
  assert (Hn : Qnum q <= 0) by (revert Hq; unfold Qle; cbn [Qnum Qden]; lia).
  destruct (nearest_cases q) as (m & s & Hs & Hm & B & _ & E). rewrite E. clear E.
  pose proof (pow2_pos s Hs) as HS. pose proof units_pos as HU.
  assert (HV : 0 <= m * 2 ^ s) by nia.
  destruct (F64.overflow_at <=? m * 2 ^ s); [discriminate |].
  intros [= <-]. rewrite Qred_correct. unfold Qle. cbn [Qnum Qden].
  destruct (Z.ltb_spec (Qnum q) 0) as [Hlt | Hge]; [lia |].
  assert (E0 : Qnum q = 0) by lia. rewrite E0 in B. cbn [Z.abs Z.mul] in B.
  assert (Em : m = 0) by nia. rewrite Em. lia.
Qed.

(** Multiples of one quarter below [2^51] are representable. *)
Lemma representable_quarters (q : Q) (k : Z) :
  (q * 4 == inject_Z k)%Q -> Z.abs k < 2 ^ 53 -> representable q.
Proof.
  intros Hk Hb. exists (k * 2 ^ 1072), (Z.abs k), 1072.
  pose proof (pow2_pos 1072 ltac:(lia)) as HP.
  assert (HU : F64.units = 4 * 2 ^ 1072).
  { unfold F64.units. change 4 with (2 ^ 2). rewrite <- Z.pow_add_r by lia. reflexivity. }
  split; [| split; [| split; [| split]]].
  - revert Hk. unfold Qeq. cbn [Qnum Qden Qmult inject_Z]. rewrite units_id, HU.
    rewrite Pos2Z.inj_mul. nia.
  - rewrite Z.abs_mul, (Z.abs_eq (2 ^ 1072)) by lia. reflexivity.
  - lia.
  - lia.
  - rewrite Z.abs_mul, (Z.abs_eq (2 ^ 1072)) by lia.
    assert (2 ^ 53 * 2 ^ 1072 <= F64.overflow_at).
    { unfold F64.overflow_at. rewrite <- Z.pow_add_r by lia. apply Z.pow_le_mono_r; lia. }
    nia.
Qed.

Lemma exact_Qeq (q q' : Q) : (q == q')%Q -> F64.exact q = F64.exact q'.
Proof. intros E. unfold F64.exact. f_equal. by apply Qred_complete. Qed.

Lemma nearest_quarters (q : Q) (k : Z) :
  (q * 4 == inject_Z k)%Q -> Z.abs k < 2 ^ 53 -> F64.nearest q = F64.exact q.
Proof. intros Hk Hb. apply nearest_representable. by apply (representable_quarters q k). Qed.

Lemma of_int_exact (z : Z) :
  Z.abs (4 * z) < 2 ^ 53 -> F64.of_int z = Return (F64.exact (inject_Z z)).
Proof.
  intros Hb. unfold F64.of_int. rewrite (nearest_quarters _ (4 * z)); [reflexivity | | exact Hb].
  unfold Qeq. cbn [Qnum Qden Qmult inject_Z]. lia.
Qed.

Lemma mul_quarters (a b : Q) (k : Z) :
  (a * b * 4 == inject_Z k)%Q -> Z.abs k < 2 ^ 53 ->
  F64.mul (F64.exact a) (F64.exact b) = F64.exact (a * b).
Proof.
  intros Hk Hb. unfold F64.exact at 1 2. cbn [F64.mul].
  rewrite (nearest_quarters _ k); [| | exact Hb].
  - apply exact_Qeq. by rewrite !Qred_correct.
  - by rewrite !Qred_correct.
Qed.

(** Rounding to two decimals leaves a multiple of one quarter as it is. *)
Lemma round2_quarters (q : Q) (k : Z) :
  (q * 4 == inject_Z k)%Q -> Z.abs k < 2 ^ 53 ->
  F64.round2 (F64.exact q) = Return (F64.exact q).
Proof.
  intros Hk Hb. unfold F64.exact at 1. cbn [F64.round2].
  assert (Hk' : Qnum q * 4 = k * Z.pos (Qden q)).
  { revert Hk. unfold Qeq. cbn [Qnum Qden Qmult inject_Z]. lia. }
  rewrite (round_half_even_exact _ (25 * k)).
  2:{ rewrite Qred_correct. unfold Qeq. cbn [Qnum Qden Qmult inject_Z]. lia. }
  rewrite (nearest_quarters _ k); [| | exact Hb].
  - unfold F64.exact. do 2 f_equal. apply Qred_complete.
    unfold Qeq. cbn [Qnum Qden]. lia.
  - unfold Qeq. cbn [Qnum Qden Qmult inject_Z]. lia.
Qed.

(** Rounding a double from one on to two decimals: the decimal [d]
    nearest to it, then the double nearest to [d]. *)
Lemma round2_bounds (q : Q) (x : F64.float) :
  (1 <= q)%Q -> F64.round2 (F64.Finite q) = Return x ->
  exists r d : Q,
    x = F64.Finite r
    /\ ((r - d) * 9007199254740992 <= d /\ (d - r) * 9007199254740992 <= d
        /\ d - q <= 1 # 200 /\ q - d <= 1 # 200)%Q.
Proof.
  intros Hq. cbn [F64.round2].
  set (z := Py.round_half_even (q * 100)).
  assert (Hz : - Z.pos (Qden (q * 100)) <= 2 * Qnum (q * 100) - 2 * z * Z.pos (Qden (q * 100))
               <= Z.pos (Qden (q * 100))).
  { unfold z. destruct (q * 100)%Q as [n d]. apply round_half_even_bounds. }
  assert (Hd : ((z # 100) - q <= 1 # 200 /\ q - (z # 100) <= 1 # 200)%Q).
  { revert Hz. destruct q as [n d]. unfold Qle. cbn [Qnum Qden Qmult Qminus Qplus Qopp].
    rewrite !Pos2Z.inj_mul. generalize z. intros z'. nia. }
  clearbody z. clear Hz.
  destruct (F64.nearest (z # 100)) as [r | |] eqn:E; try discriminate.
  intros [= <-]. exists r, (z # 100). split; [reflexivity |].
  assert (H12 : (1 # 2 <= z # 100)%Q) by lra.
  destruct (nearest_error _ _ H12 E) as [E1 E2].
  tauto.
Qed.

(** Below [2^1023] in absolute value there is no overflow. *)
Lemma nearest_finite (q : Q) :
  Z.abs (Qnum q) < 2 ^ 1023 * Z.pos (Qden q) -> exists r, F64.nearest q = F64.Finite r.
Proof.
  intros Hb. destruct (nearest_cases q) as (m & s & Hs & Hm & _ & C & E). rewrite E. clear E.
  pose proof (pow2_pos s Hs) as HS. pose proof units_pos as HU.
  pose proof (pow2_pos 53 ltac:(lia)) as H53.
  assert (Hov : m * 2 ^ s < F64.overflow_at).
  { unfold F64.overflow_at. destruct C as [-> | C].
    - change (2 ^ 0) with 1. rewrite Z.mul_1_r.
      assert (2 ^ 53 < 2 ^ 2098) by (apply Z.pow_lt_mono_r; lia). lia.
    - assert (H1 : 2 ^ (s + 52) * Z.pos (Qden q) < 2 ^ 2097 * Z.pos (Qden q)).
      { eapply Z.le_lt_trans; [exact C |].
        replace (2 ^ 2097) with (2 ^ 1023 * F64.units)
          by (unfold F64.units; rewrite <- Z.pow_add_r by lia; reflexivity).
        nia. }
      assert (H2 : 2 ^ (s + 52) < 2 ^ 2097) by nia.
      apply Z.pow_lt_mono_r_iff in H2; [| lia | lia].
      assert (H3 : 2 ^ s <= 2 ^ 2044) by (apply Z.pow_le_mono_r; lia).
      assert (H4 : 2 ^ 53 * 2 ^ 2044 < 2 ^ 2098).
      { rewrite <- Z.pow_add_r by lia. apply Z.pow_lt_mono_r; lia. }
      pose proof (pow2_pos 2044 ltac:(lia)). nia. }
  destruct (Z.leb_spec F64.overflow_at (m * 2 ^ s)); [lia | eauto].
Qed.

(** Rounding a double from one on to two decimals returns. *)
Lemma round2_returns (r : Q) :
  representable r -> (1 <= r)%Q -> exists x, F64.round2 (F64.Finite r) = Return (F64.Finite x).
Proof.
  intros Rr Hr. cbn [F64.round2].
  assert (Hfin : exists x, F64.nearest (Py.round_half_even (r * 100) # 100) = F64.Finite x).
  { pose proof Rr as Rr'. destruct Rr as (v & m & s & Hq & Hv & Hm & Hs & Hov).
    pose proof units_pos as HU. pose proof (pow2_pos s Hs) as HS.
    assert (E : Qnum r * F64.units = v * Z.pos (Qden r)).
    { revert Hq. unfold Qeq. cbn [Qnum Qden]. rewrite units_id. tauto. }
    assert (Hn : Z.pos (Qden r) <= Qnum r).
    { revert Hr. unfold Qle. cbn [Qnum Qden]. lia. }
    assert (Hv0 : 0 < v) by nia.
    rewrite Z.abs_eq in Hv by lia.
    destruct (Z_le_gt_dec 1074 s) as [Hs1 | Hs1].
    - assert (ES : 2 ^ s = 2 ^ (s - 1074) * F64.units).
      { unfold F64.units. rewrite <- Z.pow_add_r by lia. f_equal. lia. }
      assert (Ek : Qnum r = m * 2 ^ (s - 1074) * Z.pos (Qden r)).
      { rewrite Hv, ES in E. nia. }
      rewrite (round_half_even_exact _ (100 * (m * 2 ^ (s - 1074)))).
      2:{ unfold Qeq. cbn [Qnum Qden Qmult inject_Z]. rewrite Pos2Z.inj_mul, Ek. ring. }
      rewrite nearest_representable; [eauto |].
      apply (representable_Qeq r); [| exact Rr'].
      unfold Qeq. cbn [Qnum Qden]. rewrite Ek. ring.
    - apply nearest_finite. cbn [Qnum Qden].
      pose proof (round_half_even_bounds (Qnum (r * 100)) (Qden (r * 100))) as B.
      replace (Qnum (r * 100) # Qden (r * 100)) with (r * 100)%Q in B by (by destruct (r * 100)%Q).
      set (z := Py.round_half_even (r * 100)) in *.
      cbn [Qnum Qden Qmult] in B. rewrite Pos2Z.inj_mul in B.
      change (Z.pos 1) with 1 in B. rewrite Z.mul_1_r in B.
      assert (Hv1 : v < 2 ^ 53 * F64.units).
      { assert (2 ^ s <= 2 ^ 1073) by (apply Z.pow_le_mono_r; lia).
        assert (2 ^ 1073 < F64.units) by (apply Z.pow_lt_mono_r; lia).
        pose proof (pow2_pos 53 ltac:(lia)). nia. }
      assert (Hr53 : Qnum r < 2 ^ 53 * Z.pos (Qden r)) by nia.
      assert (H60 : 2 ^ 60 * 100 <= 2 ^ 1023 * 100).
      { assert (2 ^ 60 <= 2 ^ 1023) by (apply Z.pow_le_mono_r; lia). lia. }
      assert (E53 : 2 ^ 53 = 9007199254740992) by reflexivity.
      assert (E60 : 2 ^ 60 = 1152921504606846976) by reflexivity.
      rewrite E53 in Hr53. rewrite E60 in H60.
      set (d := Z.pos (Qden r)) in *. assert (Hd : 0 < d) by (unfold d; lia).
      assert (Z.abs z < 1152921504606846976 * 100); [| lia].
      assert (0 <= z) by nia.
      assert (2 * z * d <= 2 * (Qnum r * 100) + d) by lia.
      assert (z * d < 1152921504606846976 * 100 * d) by nia.
      assert (z < 1152921504606846976 * 100) by nia.
      lia. }
  destruct Hfin as (x & ->). eauto.
Qed.

Lemma of_int_returns (n : Z) :
  Z.abs n < 2 ^ 1023 -> exists q, F64.of_int n = Return (F64.Finite q).
Proof.
  intros Hb. unfold F64.of_int.
  destruct (nearest_finite (inject_Z n)) as (r & ->); [| eauto].
  cbn [Qnum Qden inject_Z]. lia.
Qed.

(** Ties go to the even mantissa, and [round(x, 2)] rounds the binary
    value of [x], not its decimal spelling. *)
Example nearest_ties_to_even :
  F64.nearest (inject_Z (2 ^ 53 + 1)) = F64.Finite (inject_Z (2 ^ 53))
  /\ F64.nearest (inject_Z (2 ^ 53 + 3)) = F64.Finite (inject_Z (2 ^ 53 + 4))
  /\ F64.nearest (1 # 10) = F64.Finite (3602879701896397 # 36028797018963968).
Proof. repeat split; vm_compute; reflexivity. Qed.

Example round2_ties :
  F64.round2 (F64.Finite (1 # 8)) = Return (F64.nearest (12 # 100))
  /\ F64.round2 (F64.Finite (3 # 8)) = Return (F64.nearest (38 # 100))
  /\ F64.round2 (F64.nearest (2675 # 1000)) = Return (F64.nearest (267 # 100)).
Proof. repeat split; vm_compute; reflexivity. Qed.

(** ** Tier prices *)

Lemma base_price_floor_base (inp : ProposalInput) :
  base_price inp = floor_base (audience_size inp).
Proof.
  unfold base_price, floor_base, max_500_half, Py.int_or.
  destruct (audience_size inp) as [n |]; [| vm_compute; reflexivity].
  destruct (Z.eqb_spec n 0) as [-> | _]; [vm_compute |]; reflexivity.
Qed.

Lemma tier_prices_from (inp : ProposalInput) :
  tier_prices inp = (let* base := base_price inp in prices_from base).
Proof.
  unfold tier_prices, default_tiers, prices_from.
  destruct (base_price inp) as [base |]; cbn [bind]; [| reflexivity].
  set (B := bind (Num.round2 base) _).
  set (S := bind (Num.mul_int base 2) _).
  set (G := bind (Num.mul_float base _) _).
  destruct B; cbn [bind]; [| reflexivity].
  destruct S; cbn [bind]; [| reflexivity].
  destruct G; cbn [bind]; reflexivity.
Qed.

(** The prices of a base that is the integer 500. *)
Lemma prices_from_500 :
  prices_from (Int 500) = Return [F64.Finite 500; F64.Finite 1000; F64.Finite 1750].
Proof. vm_compute. reflexivity. Qed.

(** The base below the point where a product stops being exact. *)
Lemma max_500_half_exact (n : Z) :
  0 <= n -> 7 * n < 2 ^ 53 ->
  max_500_half n
  = Return (if 1000 <? n then Float (F64.exact (n # 2)) else Int 500).
Proof.
  intros H0 Hb. unfold max_500_half, Num.int_mul_float.
  rewrite of_int_exact by lia. cbn [bind].
  change (F64.Finite (1 # 2)) with (F64.exact (1 # 2)).
  rewrite (mul_quarters _ _ (2 * n)).
  2:{ unfold Qeq. cbn [Qnum Qden Qmult inject_Z]. lia. }
  2:{ lia. }
  rewrite (exact_Qeq _ (n # 2)).
  2:{ unfold Qeq. cbn [Qnum Qden Qmult inject_Z]. lia. }
  unfold Num.max_int_float, F64.gt_int, F64.exact.
  destruct (Qcompare (inject_Z 500) (Qred (n # 2))) eqn:C.
  - apply Qeq_alt in C. rewrite Qred_correct in C. revert C. unfold Qeq. cbn [Qnum Qden inject_Z].
    intros C. destruct (Z.ltb_spec 1000 n); [lia | reflexivity].
  - apply Qlt_alt in C. rewrite Qred_correct in C. revert C. unfold Qlt. cbn [Qnum Qden inject_Z].
    intros C. destruct (Z.ltb_spec 1000 n); [reflexivity | lia].
  - apply Qgt_alt in C. rewrite Qred_correct in C. revert C. unfold Qlt. cbn [Qnum Qden inject_Z].
    intros C. destruct (Z.ltb_spec 1000 n); [lia | reflexivity].
Qed.

Lemma prices_from_exact (n : Z) :
  0 <= n -> 7 * n < 2 ^ 53 ->
  prices_from (Float (F64.exact (n # 2))) = Return (exact_prices n).
Proof.
  intros H0 Hb. unfold prices_from, exact_prices, Num.round2, Num.mul_int, Num.mul_float, Num.as_float.
  rewrite (round2_quarters _ (2 * n)).
  2:{ unfold Qeq. cbn [Qnum Qden Qmult inject_Z]. lia. }
  2:{ lia. }
  cbn [bind].
  change (F64.of_int 2) with (Return (F64.exact 2)). cbn [bind].
  rewrite (mul_quarters _ _ (4 * n)).
  2:{ unfold Qeq. cbn [Qnum Qden Qmult inject_Z]. lia. }
  2:{ lia. }
  rewrite (round2_quarters _ (4 * n)).
  2:{ unfold Qeq. cbn [Qnum Qden Qmult inject_Z]. lia. }
  2:{ lia. }
  cbn [bind].
  change (F64.Finite (7 # 2)) with (F64.exact (7 # 2)).
  rewrite (mul_quarters _ _ (7 * n)).
  2:{ unfold Qeq. cbn [Qnum Qden Qmult inject_Z]. lia. }
  2:{ lia. }
  rewrite (round2_quarters _ (7 * n)).
  2:{ unfold Qeq. cbn [Qnum Qden Qmult inject_Z]. lia. }
  2:{ lia. }
  cbn [bind].
  rewrite (exact_Qeq ((n # 2) * 2) (inject_Z n)).
  2:{ unfold Qeq. cbn [Qnum Qden Qmult inject_Z]. lia. }
  rewrite (exact_Qeq ((n # 2) * (7 # 2)) (7 * n # 4)).
  2:{ unfold Qeq. cbn [Qnum Qden Qmult inject_Z]. lia. }
  reflexivity.
Qed.

(** While seven times the audience size stays below [2^53], no
    operation rounds: the prices are the real numbers of the formula. *)
Lemma tier_prices_exact (inp : ProposalInput) :
  0 <= priced_audience inp -> 7 * priced_audience inp < 2 ^ 53 ->
  tier_prices inp = Return (exact_prices (Z.max 1000 (priced_audience inp))).
Proof.
  intros H0 Hb. rewrite tier_prices_from. unfold base_price. fold (priced_audience inp).
  fold (max_500_half (priced_audience inp)). rewrite max_500_half_exact by assumption.
  cbn [bind]. destruct (Z.ltb_spec 1000 (priced_audience inp)) as [H | H].
  - rewrite Z.max_r by lia. by apply prices_from_exact.
  - rewrite Z.max_l by lia. rewrite prices_from_500. vm_compute. reflexivity.
Qed.

(** C1, as worded, fails when no audience size is given: the Bronze price
    is 500, not the 250 that a base of 250 would give. *)
Lemma C1_absent_audience_counterexample :
  tier_prices (sample_input None)
  = Return [F64.Finite 500; F64.Finite 1000; F64.Finite 1750]
  /\ (let* base := spec_base None in prices_from base)
     = Return [F64.Finite 250; F64.Finite 500; F64.Finite 875]
  /\ tier_prices (sample_input None) <> (let* base := spec_base None in prices_from base).
Proof.
  split; [vm_compute; reflexivity |]. split; [vm_compute; reflexivity |].
  vm_compute. discriminate.
Qed.

(** C1 (amended): the tier prices are round(base, 2), round(base * 2, 2)
    and round(base * 3.5, 2) with base = max(500, audience_size * 0.5)
    when an audience size is given and base = 500 when it is absent;
    while seven times the audience size is below 2^53 they are the real
    numbers max(1000, size) / 2, max(1000, size) and
    3.5 * max(1000, size) / 2, and for audience_size = 0 as for an absent
    one they are 500, 1000 and 1750; past that range a product is the
    nearest double, ties to even: for 1286742750677287 attendees the Gold
    product 2251799813685252.25 becomes 2251799813685252. *)
Theorem C1_tier_prices (inp : ProposalInput) :
  tier_prices inp = (let* base := floor_base (audience_size inp) in prices_from base)
  /\ (0 <= priced_audience inp -> 7 * priced_audience inp < 2 ^ 53 ->
      tier_prices inp = Return (exact_prices (Z.max 1000 (priced_audience inp))))
  /\ tier_prices (set_audience_size inp (Some 0))
     = Return [F64.Finite 500; F64.Finite 1000; F64.Finite 1750]
  /\ tier_prices (set_audience_size inp None)
     = Return [F64.Finite 500; F64.Finite 1000; F64.Finite 1750]
  /\ tier_prices (set_audience_size inp (Some 1286742750677287))
     = Return [F64.Finite (1286742750677287 # 2); F64.Finite 1286742750677287;
               F64.Finite 2251799813685252].
Proof.
  split; [| split; [| split; [| split]]].
  - rewrite tier_prices_from, base_price_floor_base. reflexivity.
  - apply tier_prices_exact.
  - rewrite tier_prices_from. vm_compute. reflexivity.
  - rewrite tier_prices_from. vm_compute. reflexivity.
  - rewrite tier_prices_from. vm_compute. reflexivity.
Qed.

Lemma C1_tier_prices_witness :
  tier_prices (sample_input (Some 1201))
  = Return [F64.Finite (1201 # 2); F64.Finite 1201; F64.Finite (8407 # 4)].
Proof.
  destruct (C1_tier_prices (sample_input (Some 1201))) as (_ & H & _).
  apply H; vm_compute; [discriminate | reflexivity].
Defined.

(** From 1286742750677285 attendees on the Gold price is a rounded
    product, and an audience size beyond the float range is refused. *)
Example tier_prices_rounded :
  tier_prices (sample_input (Some 1286742750677285))
  = Return [F64.Finite (1286742750677285 # 2); F64.Finite 1286742750677285;
            F64.Finite 2251799813685249].
Proof. vm_compute. reflexivity. Qed.

Example tier_prices_overflow :
  tier_prices (sample_input (Some (10 ^ 400))) = Raise OverflowError.
Proof. vm_compute. reflexivity. Qed.

(** ** The three tiers *)

Lemma default_tiers_shape (inp : ProposalInput) (ts : list BenefitTier) :
  default_tiers inp = Return ts ->
  map tier_name ts = ["Bronze"; "Silver"; "Gold"]
  /\ length ts = 3%nat
  /\ exists base, base_price inp = Return base /\ prices_from base = Return (map price ts).
Proof.
  intros E.
  assert (Hp : tier_prices inp = Return (map price ts)).
  { unfold tier_prices. rewrite E. reflexivity. }
  rewrite tier_prices_from in Hp.
  revert E. unfold default_tiers.
  destruct (base_price inp) as [base |]; cbn [bind] in *; [| discriminate].
  set (B := bind (Num.round2 base) _).
  set (S := bind (Num.mul_int base 2) _).
  set (G := bind (Num.mul_float base _) _).
  destruct B; cbn [bind]; [| discriminate].
  destruct S; cbn [bind]; [| discriminate].
  destruct G; cbn [bind]; [| discriminate].
  intros [= <-]. split; [reflexivity |]. split; [reflexivity |].
  exists base. split; [reflexivity | exact Hp].
Qed.

(** The base is the integer 500 or a double above 500 whose double is
    a double again. *)
Lemma max_500_half_cases (n : Z) (base : num) :
  max_500_half n = Return base ->
  base = Int 500
  \/ exists q, base = Float (F64.Finite q) /\ (500 < q)%Q
       /\ representable q /\ representable (q * 2).
Proof.
  unfold max_500_half, Num.int_mul_float, F64.of_int.
  destruct (F64.nearest (inject_Z n)) as [qy | |] eqn:Ey; cbn [bind]; try discriminate.
  intros [= <-]. unfold Num.max_int_float. cbn [F64.mul].
  destruct (F64.gt_int (F64.nearest (qy * (1 # 2))) 500) eqn:G; [right | left; reflexivity].
  destruct (Z_le_gt_dec n 0) as [Hn | Hn].
  - exfalso. assert (Hq : (qy <= 0)%Q).
    { apply (nearest_nonpos_Finite (inject_Z n)); [| exact Ey].
      unfold Qle. cbn [Qnum Qden inject_Z]. lia. }
    rewrite nearest_nonpos_gt_int in G; [discriminate | lra | lia].
  - assert (H1 : (1 <= inject_Z n)%Q) by (unfold Qle; cbn [Qnum Qden inject_Z]; lia).
    assert (H12 : (1 # 2 <= inject_Z n)%Q) by lra.
    destruct (nearest_error (inject_Z n) qy H12 Ey) as [E1 E2].
    assert (Hq : (1 # 2 <= qy)%Q) by lra.
    pose proof (nearest_Finite_representable _ _ Ey) as Ry.
    pose proof (representable_half _ Ry Hq) as Rh.
    rewrite (nearest_representable _ Rh) in G |- *.
    exists (Qred (qy * (1 # 2))). split; [reflexivity |]. split.
    + unfold F64.gt_int in G.
      destruct (Qcompare (inject_Z 500) (Qred (qy * (1 # 2)))) eqn:C; try discriminate.
      apply Qlt_alt in C. exact C.
    + split.
      * apply (representable_Qeq (qy * (1 # 2))); [| exact Rh]. by rewrite Qred_correct.
      * apply (representable_Qeq qy); [| exact Ry]. rewrite Qred_correct. lra.
Qed.

(** The three prices of such a base are computed without an exception. *)
Lemma prices_from_returns (base : num) :
  base = Int 500
  \/ (exists q, base = Float (F64.Finite q) /\ (500 < q)%Q
        /\ representable q /\ representable (q * 2)) ->
  exists b s g, prices_from base = Return [b; s; g].
Proof.
  intros [-> | (q & -> & Hq & Rq & Rq2)].
  - rewrite prices_from_500. eauto.
  - unfold prices_from, Num.round2, Num.mul_int, Num.mul_float, Num.as_float.
    assert (Hq1 : (1 <= q)%Q) by lra.
    destruct (round2_returns q Rq Hq1) as (xb & ->). cbn [bind].
    change (F64.of_int 2) with (Return (F64.Finite 2)). cbn [bind F64.mul].
    rewrite (nearest_representable _ Rq2).
    assert (Rs : representable (Qred (q * 2))).
    { apply (representable_Qeq (q * 2)); [| exact Rq2]. by rewrite Qred_correct. }
    assert (Hs1 : (1 <= Qred (q * 2))%Q) by (rewrite Qred_correct; lra).
    destruct (round2_returns _ Rs Hs1) as (xs & ->). cbn [bind].
    destruct (F64.nearest (q * (7 # 2))) as [g0 | negative |] eqn:Eg0.
    + assert (Hg12 : (1 # 2 <= q * (7 # 2))%Q) by lra.
      destruct (nearest_error _ _ Hg12 Eg0) as [G01 G02].
      assert (Hg1 : (1 <= g0)%Q) by lra.
      destruct (round2_returns g0 (nearest_Finite_representable _ _ Eg0) Hg1) as (xg & ->).
      cbn [bind]. eauto.
    + cbn [F64.round2 bind]. eauto.
    + exfalso. by apply (nearest_not_NaN (q * (7 # 2))).
Qed.

(** [default_tiers] returns exactly when the audience size converts to a
    float, and raises nothing but the conversion's [OverflowError]. *)
Lemma default_tiers_returns (inp : ProposalInput) (y : F64.float) :
  F64.of_int (priced_audience inp) = Return y -> exists ts, default_tiers inp = Return ts.
Proof.
  intros Hy.
  assert (Hb : exists base, base_price inp = Return base).
  { unfold base_price, Num.int_mul_float. fold (priced_audience inp). rewrite Hy.
    cbn [bind]. eauto. }
  destruct Hb as (base & Hb).
  destruct (prices_from_returns base (max_500_half_cases _ _ Hb)) as (b & s & g & Hp).
  pose proof (tier_prices_from inp) as E. rewrite Hb in E. cbn [bind] in E. rewrite Hp in E.
  revert E. unfold tier_prices. destruct (default_tiers inp) as [ts | e]; [eauto | discriminate].
Qed.

Lemma of_int_raises (n : Z) (e : exn) : F64.of_int n = Raise e -> e = OverflowError.
Proof.
  unfold F64.of_int. destruct (F64.nearest (inject_Z n)); [discriminate | |]; by intros [= <-].
Qed.

Lemma default_tiers_raises (inp : ProposalInput) (e : exn) :
  default_tiers inp = Raise e ->
  e = OverflowError /\ F64.of_int (priced_audience inp) = Raise OverflowError.
Proof.
  intros He. destruct (F64.of_int (priced_audience inp)) as [y | e'] eqn:Ey.
  - destruct (default_tiers_returns inp y Ey) as (ts & Hts). congruence.
  - pose proof (of_int_raises _ _ Ey) as ->. split; [| reflexivity].
    revert He. unfold default_tiers, base_price, Num.int_mul_float.
    fold (priced_audience inp). rewrite Ey. cbn [bind]. by intros [= <-].
Qed.

(** The three prices of a base above 500 increase strictly. *)
Lemma prices_from_increasing (q : Q) (b s g : F64.float) :
  (500 < q)%Q -> representable (q * 2) ->
  prices_from (Float (F64.Finite q)) = Return [b; s; g] ->
  F64.lt b s /\ F64.lt s g.
Proof.
  intros Hq Rq. unfold prices_from, Num.round2, Num.mul_int, Num.mul_float, Num.as_float.
  destruct (F64.round2 (F64.Finite q)) as [xb |] eqn:Eb; cbn [bind]; [| discriminate].
  change (F64.of_int 2) with (Return (F64.Finite 2)). cbn [bind F64.mul].
  rewrite (nearest_representable _ Rq).
  pose proof (Qred_correct (q * 2)) as Hs0. set (s0 := Qred (q * 2)) in *.
  destruct (F64.round2 (F64.Finite s0)) as [xs |] eqn:Es; cbn [bind]; [| discriminate].
  assert (Hq1 : (1 <= q)%Q) by lra.
  destruct (round2_bounds q _ Hq1 Eb) as (rb & db & -> & B1 & B2 & B3 & B4).
  assert (Hs1 : (1 <= s0)%Q) by lra.
  destruct (round2_bounds s0 _ Hs1 Es) as (rs & ds & -> & S1 & S2 & S3 & S4).
  destruct (F64.nearest (q * (7 # 2))) as [g0 | negative |] eqn:Eg0.
  - assert (Hg12 : (1 # 2 <= q * (7 # 2))%Q) by lra.
    destruct (nearest_error _ _ Hg12 Eg0) as [G01 G02].
    destruct (F64.round2 (F64.Finite g0)) as [xg |] eqn:Eg; cbn [bind]; [| discriminate].
    assert (Hg1 : (1 <= g0)%Q) by lra.
    destruct (round2_bounds g0 _ Hg1 Eg) as (rg & dg & -> & G1 & G2 & G3 & G4).
    intros [= <- <- <-]. cbn [F64.lt]. split; lra.
  - assert (Hg0 : (0 <= q * (7 # 2))%Q) by lra.
    rewrite (nearest_nonneg_Infinity _ _ Hg0 Eg0). cbn [F64.round2 bind].
    intros [= <- <- <-]. cbn [F64.lt]. split; [lra | reflexivity].
  - exfalso. by apply (nearest_not_NaN (q * (7 # 2))).
Qed.

(** C5: a generated proposal has exactly the three tiers Bronze, Silver
    and Gold, in that order, with strictly increasing prices. *)
Theorem C5_three_tiers_increasing (inp : ProposalInput) (p : Proposal) :
  build_proposal inp = Return p ->
  map tier_name (tiers p) = ["Bronze"; "Silver"; "Gold"]
  /\ length (tiers p) = 3%nat
  /\ exists b s g : F64.float,
       map price (tiers p) = [b; s; g] /\ F64.lt b s /\ F64.lt s g.
Proof.
  unfold build_proposal.
  destruct (default_tiers inp) as [ts |] eqn:E; cbn [bind]; [| discriminate].
  intros [= <-]. cbn [tiers].
  destruct (default_tiers_shape inp ts E) as (Hn & Hl & base & Hb & Hp).
  split; [exact Hn |]. split; [exact Hl |].
  destruct ts as [| [n1 b l1] [| [n2 s l2] [| [n3 g l3] [| ? ?]]]]; try discriminate Hl.
  exists b, s, g. split; [reflexivity |]. cbn [map price] in Hp.
  destruct (max_500_half_cases _ _ Hb) as [-> | (q & -> & Hq & _ & Rq)].
  - rewrite prices_from_500 in Hp. injection Hp as <- <- <-.
    cbn [F64.lt]. split; reflexivity.
  - by apply (prices_from_increasing q).
Qed.

Lemma C5_three_tiers_increasing_witness :
  exists p : Proposal,
    build_proposal (sample_input (Some 1201)) = Return p
    /\ map tier_name (tiers p) = ["Bronze"; "Silver"; "Gold"]
    /\ length (tiers p) = 3%nat
    /\ exists b s g : F64.float,
         map price (tiers p) = [b; s; g] /\ F64.lt b s /\ F64.lt s g.
Proof.
  eexists. split; [vm_compute; reflexivity |].
  apply (C5_three_tiers_increasing (sample_input (Some 1201))).
  vm_compute. reflexivity.
Defined.

Local Open Scope string_scope.

(** ** Strings *)

Lemma prefix_spec (a s : string) :
  String.prefix a s = true <-> exists post, s = a ++ post.
Proof.
  revert s. induction a as [| c a IH]; intros s.
  - split; [intros _; exists s; reflexivity | intros _; destruct s; reflexivity].
  - destruct s as [| c' s]; simpl.
    + split; [discriminate | intros [post H]; discriminate H].
    + destruct (ascii_dec c c') as [-> | Hne].
      * rewrite IH. split; intros [post H]; exists post.
        -- simpl. by rewrite H.
        -- simpl in H. by injection H.
      * split; [discriminate |]. intros [post H]. simpl in H. injection H as H1 H2.
        congruence.
Qed.

Lemma contains_unfold (sub s : string) :
  Py.contains sub s =
  if String.prefix sub s then true
  else match s with
       | EmptyString => false
       | String _ r => Py.contains sub r
       end.
Proof. destruct s; reflexivity. Qed.

(** [Py.contains] decides the occurrence of a contiguous block. *)
Lemma contains_spec (sub s : string) :
  Py.contains sub s = true <-> exists pre post, s = pre ++ sub ++ post.
Proof.
  induction s as [| c s IH]; rewrite contains_unfold.
  - destruct (String.prefix sub "") eqn:E.
    + split; [intros _ | reflexivity].
      apply prefix_spec in E as [post E]. exists "", post. exact E.
    + split; [discriminate |]. intros (pre & post & H).
      destruct pre; simpl in H; [| discriminate H].
      assert (String.prefix sub "" = true) by (apply prefix_spec; eauto).
      congruence.
  - destruct (String.prefix sub (String c s)) eqn:E.
    + split; [intros _ | reflexivity].
      apply prefix_spec in E as [post E]. exists "", post. exact E.
    + rewrite IH. split.
      * intros (pre & post & H). exists (String c pre), post. simpl. by rewrite H.
      * intros (pre & post & H). destruct pre as [| c' pre]; simpl in H.
        -- assert (String.prefix sub (String c s) = true) by (apply prefix_spec; eauto).
           congruence.
        -- injection H as _ H. eauto.
Qed.

Lemma group3_strip_aux (n : nat) (l : list ascii) :
  (length l <= n)%nat -> forallb no_comma l = true ->
  List.filter no_comma (Py.group3 l) = l.
Proof.
  revert l. induction n as [| n IH]; intros l Hlen Hall.
  - destruct l; [reflexivity | simpl in Hlen; lia].
  - destruct l as [| a [| b [| c [| d r]]]].
    + reflexivity.
    + simpl in *. destruct (no_comma a); [reflexivity | discriminate].
    + simpl in *. destruct (no_comma a), (no_comma b); try discriminate; reflexivity.
    + simpl in *. destruct (no_comma a), (no_comma b), (no_comma c); try discriminate; reflexivity.
    + change (Py.group3 (a :: b :: c :: d :: r))
        with (a :: b :: c :: ","%char :: Py.group3 (d :: r)).
      change (forallb no_comma (a :: b :: c :: d :: r))
        with (no_comma a && (no_comma b && (no_comma c && forallb no_comma (d :: r)))) in Hall.
      apply andb_prop in Hall as [Ha Hall]. apply andb_prop in Hall as [Hb Hall].
      apply andb_prop in Hall as [Hc Hall].
      cbn [List.filter]. rewrite Ha, Hb, Hc.
      change (no_comma ",") with false. cbv iota.
      rewrite IH; [reflexivity | simpl in Hlen |- *; lia | exact Hall].
Qed.

Lemma uint_no_comma (u : Decimal.uint) :
  forallb no_comma (list_ascii_of_string (NilEmpty.string_of_uint u)) = true.
Proof. induction u; simpl; auto. Qed.

Lemma forallb_rev {A} (f : A -> bool) (l : list A) :
  forallb f l = true -> forallb f (rev l) = true.
Proof.
  rewrite !forallb_forall. intros H x Hx. apply H. by apply in_rev.
Qed.

(** The grouped rendering of a non-negative integer is its decimal
    digits with commas inserted. *)
Lemma fmt_thousands_strip (n : Z) :
  (0 <= n)%Z ->
  List.filter no_comma (list_ascii_of_string (Py.fmt_thousands n))
  = list_ascii_of_string (Py.digits n).
Proof.
  intros Hn. unfold Py.fmt_thousands.
  destruct (Z.ltb_spec n 0) as [? | _]; [lia |].
  rewrite list_ascii_of_string_of_list_ascii, List.filter_rev.
  rewrite (group3_strip_aux (length (rev (list_ascii_of_string (Py.digits n))))).
  - apply rev_involutive.
  - lia.
  - apply forallb_rev, uint_no_comma.
Qed.

(** ** Audience summary *)

(** C3, as worded, fails for audience_size = 0: the summary then carries
    the generic phrase, not an attendee count. *)
Lemma C3_zero_audience_counterexample :
  synthesize_audience_summary (sample_input (Some 0%Z))
    = "Projected reach audience aligned to your niche. Demographics: Mixed age groups with strong local presence. Engagement via email, social, on-site activations."
  /\ spec_summary (sample_input (Some 0%Z))
    = "Projected reach ~0 attendees. Demographics: Mixed age groups with strong local presence. Engagement via email, social, on-site activations."
  /\ synthesize_audience_summary (sample_input (Some 0%Z)) <> spec_summary (sample_input (Some 0%Z)).
Proof. split; [reflexivity | split; [reflexivity | vm_compute; discriminate]]. Qed.

(** C3 (amended): the summary is the concatenation of reach,
    demographics and channels, in that order; the reach is the
    thousands-grouped attendee count when audience_size is present and
    non-zero, and the generic phrase when it is absent or 0;
    demographics and channels fall back to their fixed phrases when absent
    (or empty) and are used as given when present and non-empty. *)
Theorem C3_audience_summary (inp : ProposalInput) :
  exists reach demo channels : string,
    synthesize_audience_summary inp
      = "Projected reach " ++ reach ++ ". Demographics: " ++ demo
        ++ ". Engagement via " ++ channels ++ "."
    /\ (forall n, audience_size inp = Some n -> n <> 0%Z ->
          reach = "~" ++ Py.fmt_thousands n ++ " attendees"
          /\ ((0 <= n)%Z ->
              List.filter no_comma (list_ascii_of_string (Py.fmt_thousands n))
              = list_ascii_of_string (Py.digits n)))
    /\ (audience_size inp = None \/ audience_size inp = Some 0%Z -> reach = generic_reach)
    /\ (demographics inp = None \/ demographics inp = Some "" -> demo = default_demographics)
    /\ (forall s, demographics inp = Some s -> s <> "" -> demo = s)
    /\ (engagement_channels inp = None \/ engagement_channels inp = Some [] ->
        channels = default_channels)
    /\ (forall l, engagement_channels inp = Some l -> l <> [] -> channels = Py.join ", " l).
Proof.
  unfold synthesize_audience_summary.
  eexists _, _, _. split; [reflexivity |].
  split; [| split; [| split; [| split; [| split]]]].
  - intros n Hn Hn0. rewrite Hn. simpl. split.
    + destruct (Z.eqb_spec n 0); [contradiction | reflexivity].
    + intros Hpos. by apply fmt_thousands_strip.
  - intros [-> | ->]; reflexivity.
  - intros [-> | ->]; reflexivity.
  - intros s -> Hs. destruct s; [contradiction | reflexivity].
  - intros [-> | ->]; reflexivity.
  - intros l -> Hl. destruct l; [contradiction | reflexivity].
Qed.

Lemma C3_audience_summary_witness :
  synthesize_audience_summary
    {| pi_title := "Fair"; pi_description := "City fair"; pi_date := None; pi_location := None;
       audience_size := Some 1234567%Z; demographics := Some "Families";
       engagement_channels := Some ["email"; "radio"];
       objectives := None; industries_target := None |}
  = "Projected reach ~1,234,567 attendees. Demographics: Families. Engagement via email, radio.".
Proof.
  destruct (C3_audience_summary
              {| pi_title := "Fair"; pi_description := "City fair"; pi_date := None;
                 pi_location := None;
                 audience_size := Some 1234567%Z; demographics := Some "Families";
                 engagement_channels := Some ["email"; "radio"];
                 objectives := None; industries_target := None |})
    as (reach & demo & channels & E & Hreach & _ & _ & Hdemo & _ & Hch).
  rewrite E.
  destruct (Hreach 1234567%Z eq_refl ltac:(lia)) as [-> _].
  rewrite (Hdemo "Families" eq_refl ltac:(discriminate)).
  rewrite (Hch ["email"; "radio"] eq_refl ltac:(discriminate)).
  reflexivity.
Defined.

(** ** Sponsor matching *)

Lemma fold_matches (req : FindSponsorsRequest) (l : list Business) (acc : list Sponsor) :
  fold_left (fun matches b =>
               if industry_hit req b then (matches ++ [candidate req b])%list else matches)
            l acc
  = (acc ++ map (candidate req) (List.filter (industry_hit req) l))%list.
Proof.
  revert acc. induction l as [| b l IH]; intros acc; simpl.
  - by rewrite app_nil_r.
  - rewrite IH. destruct (industry_hit req b); [| reflexivity].
    simpl. by rewrite <- app_assoc.
Qed.

Lemma industry_hit_spec (req : FindSponsorsRequest) (b : Business) :
  industry_hit req b = true <-> industry_match (fs_industries req) b.
Proof.
  unfold industry_hit, industry_match. rewrite orb_true_iff, existsb_exists.
  split.
  - intros [H | (i & Hi & Hc)].
    + left. destruct (fs_industries req); [reflexivity | discriminate H].
    + right. exists i. split; [exact Hi |]. by apply contains_spec.
  - intros [-> | (i & Hi & Hc)].
    + left. reflexivity.
    + right. exists i. split; [exact Hi |]. by apply contains_spec.
Qed.

Lemma slice_to_nonneg {A} (l : list A) (k : Z) :
  (0 <= k)%Z -> Py.slice_to l k = take (Z.to_nat k) l.
Proof. intros H. unfold Py.slice_to. destruct (Z.ltb_spec k 0); [lia | reflexivity]. Qed.

(** C4: for a limit that is not negative, [find_sponsors] returns the
    matching candidates in catalog order, cut to at most [limit] entries;
    a business matches when no industry is requested or a requested
    industry is a case-insensitive substring of its industry; an empty
    request returns the 5-entry catalog cut at the limit, the request
    ["Finance"], in whatever letter case, exactly the River Bank Credit
    entry with its generated e-mail address, and limit 0 the empty list. *)
Theorem C4_find_sponsors (req : FindSponsorsRequest) :
  (0 <= fs_limit req)%Z ->
  find_sponsors req = take (Z.to_nat (fs_limit req)) (all_matches req)
  /\ (forall b, industry_hit req b = true <-> industry_match (fs_industries req) b)
  /\ (Z.of_nat (length (find_sponsors req)) <= fs_limit req)%Z
  /\ (fs_industries req = [] ->
      length SEED_BUSINESSES = 5%nat
      /\ find_sponsors req
         = take (Z.to_nat (fs_limit req)) (map (candidate req) SEED_BUSINESSES)
      /\ find_sponsors req
         = take (Z.to_nat (fs_limit req)) (catalog_listing (fs_location req)))
  /\ (fs_industries req = ["Finance"] \/ fs_industries req = ["fINANCE"]
      \/ fs_industries req = ["nan"] ->
      (1 <= fs_limit req)%Z ->
      find_sponsors req = [candidate req river_bank_credit]
      /\ find_sponsors req
         = [listing (fs_location req) "River Bank Credit" "Finance"
              "info@riverbankcredit.com" "https://riverbank.example"])
  /\ (fs_industries req = ["TECH"; "retail"] -> (2 <= fs_limit req)%Z ->
      find_sponsors req
      = [listing (fs_location req) "Green Wheels Bikes" "Retail"
           "info@greenwheelsbikes.com" "https://greenwheels.example";
         listing (fs_location req) "Tech Hub Co-Work" "Technology"
           "info@techhubco-work.com" "https://techhub.example"])
  /\ (fs_limit req = 0%Z -> find_sponsors req = []).
Proof.
  intros Hlim.
  assert (E : find_sponsors req = take (Z.to_nat (fs_limit req)) (all_matches req)).
  { unfold find_sponsors. rewrite fold_matches, slice_to_nonneg by exact Hlim. reflexivity. }
  split; [exact E |]. split; [apply industry_hit_spec |].
  split; [| split; [| split; [| split]]].
  - rewrite E, length_take. lia.
  - intros Hi. split; [reflexivity |]. rewrite E. unfold all_matches, industry_hit.
    rewrite Hi. split; reflexivity.
  - intros Hi H1. rewrite E. unfold all_matches, industry_hit.
    destruct (Z.to_nat (fs_limit req)) as [| k] eqn:Ek; [lia |].
    destruct Hi as [-> | [-> | ->]];
      change (List.filter _ SEED_BUSINESSES) with [river_bank_credit];
      cbn [map take]; rewrite take_nil; split; reflexivity.
  - intros Hi H2. rewrite E. unfold all_matches, industry_hit. rewrite Hi.
    destruct (Z.to_nat (fs_limit req)) as [| [| k]] eqn:Ek; [lia | lia |].
    match goal with
    | |- context [List.filter ?f SEED_BUSINESSES] =>
        change (List.filter f SEED_BUSINESSES)
          with [ {| b_name := "Green Wheels Bikes"; b_industry := "Retail";
                    b_website := "https://greenwheels.example" |};
                 {| b_name := "Tech Hub Co-Work"; b_industry := "Technology";
                    b_website := "https://techhub.example" |} ]
    end.
    cbn [map take]. rewrite take_nil. reflexivity.
  - intros H0. rewrite E, H0. reflexivity.
Qed.

Lemma C4_find_sponsors_witness :
  find_sponsors {| fs_location := "Springfield"; fs_industries := ["fINANCE"]; fs_limit := 10 |}
  = [ {| s_name := "River Bank Credit";
         s_industry := "Finance";
         s_location := "Springfield";
         s_email := Some "info@riverbankcredit.com";
         s_phone := Some "(555) 123-4567";
         s_website := Some "https://riverbank.example";
         s_status := New;
         s_proposal_id := None;
         s_notes := None;
         s_next_follow_up := None |} ].
Proof.
  destruct (C4_find_sponsors
              {| fs_location := "Springfield"; fs_industries := ["fINANCE"]; fs_limit := 10 |}
              ltac:(simpl; lia))
    as (_ & _ & _ & _ & H & _).
  apply H; [right; left; reflexivity | simpl; lia].
Defined.

(** Outside the contract, a negative limit drops entries from the end of
    the match list, as a Python slice does. *)
Example find_sponsors_negative_limit :
  map s_name (find_sponsors {| fs_location := "Springfield"; fs_industries := []; fs_limit := -1 |})
  = ["City Fitness"; "Brewed Awakenings"; "Green Wheels Bikes"; "Tech Hub Co-Work"].
Proof. reflexivity. Qed.

(** ** The document store *)

Lemma update_one_no_match (filt : doc -> bool) (upd : doc -> doc) (c : list doc) :
  Mongo.find_one filt c = None -> Mongo.update_one filt upd c = c.
Proof.
  unfold Mongo.find_one. induction c as [| d c IH]; simpl; [reflexivity |].
  destruct (filt d); [discriminate |]. intros H. by rewrite IH.
Qed.

Lemma update_one_length (filt : doc -> bool) (upd : doc -> doc) (c : list doc) :
  length (Mongo.update_one filt upd c) = length c.
Proof.
  induction c as [| d c IH]; simpl; [reflexivity |].
  destruct (filt d); simpl; [reflexivity | by rewrite IH].
Qed.

(** The document that matched is found again, updated, as long as the
    update keeps it matching. *)
Lemma find_one_update_one (filt : doc -> bool) (upd : doc -> doc) (c : list doc) (d : doc) :
  (forall x, filt x = true -> filt (upd x) = true) ->
  Mongo.find_one filt c = Some d ->
  Mongo.find_one filt (Mongo.update_one filt upd c) = Some (upd d).
Proof.
  intros Hkeep. unfold Mongo.find_one.
  induction c as [| x c IH]; simpl; [discriminate |].
  destruct (filt x) eqn:E; simpl.
  - intros [= ->]. by rewrite (Hkeep _ E).
  - rewrite E. exact IH.
Qed.

(** A query that never selects a document of the updated kind, and that
    the update does not affect, sees the same result as before. *)
Lemma find_one_update_one_other (filt filt' : doc -> bool) (upd : doc -> doc) (c : list doc) :
  (forall x, filt x = true -> filt' x = false) ->
  (forall x, filt' (upd x) = filt' x) ->
  Mongo.find_one filt' (Mongo.update_one filt upd c) = Mongo.find_one filt' c.
Proof.
  intros Hdis Hupd. unfold Mongo.find_one.
  induction c as [| x c IH]; simpl; [reflexivity |].
  destruct (filt x) eqn:E; simpl.
  - by rewrite Hupd, (Hdis _ E).
  - by rewrite IH.
Qed.

Lemma eq_filter_true (key : string) (v : value) (d : doc) :
  Mongo.eq_filter key v d = true <-> d !! key = Some v.
Proof. unfold Mongo.eq_filter. apply bool_decide_eq_true. Qed.

Lemma eq_filter_insert_ne (key k : string) (v w : value) (d : doc) :
  k <> key -> Mongo.eq_filter key v (<[k := w]> d) = Mongo.eq_filter key v d.
Proof. intros H. unfold Mongo.eq_filter. by rewrite lookup_insert_ne. Qed.

Lemma with_sponsor_same (st : Store) : with_sponsor st (sponsor st) = st.
Proof. by destruct st. Qed.

(** ** Status and note updates *)

Lemma by_id_set_status (oid : string) (now : Z) (s : Status) (d : doc) :
  by_id oid (set_status now s d) = by_id oid d.
Proof. unfold by_id, set_status. by rewrite !eq_filter_insert_ne. Qed.

Lemma by_id_set_note (oid : string) (now : Z) (note : string) (d : doc) :
  by_id oid (set_note now note d) = by_id oid d.
Proof. unfold by_id, set_note. by rewrite !eq_filter_insert_ne. Qed.

Lemma by_id_disjoint (o o' : string) (d : doc) :
  o <> o' -> by_id o d = true -> by_id o' d = false.
Proof.
  unfold by_id. intros Hne H. apply eq_filter_true in H.
  apply not_true_is_false. rewrite eq_filter_true, H. congruence.
Qed.

Lemma update_status_parsed (ObjectId : string -> option string) (st : Store) (now : Z)
    (req : UpdateStatusRequest) (oid : string) :
  ObjectId (us_sponsor_id req) = Some oid ->
  update_status ObjectId (Some st) now req
  = Return (Some (with_sponsor st
                    (Mongo.update_one (by_id oid) (set_status now (us_status req)) (sponsor st))),
            {| ok := true |}).
Proof. intros H. unfold update_status. rewrite H. reflexivity. Qed.

Lemma add_note_parsed (ObjectId : string -> option string) (st : Store) (now : Z)
    (req : AddNoteRequest) (oid : string) :
  ObjectId (an_sponsor_id req) = Some oid ->
  add_note ObjectId (Some st) now req
  = Return (Some (with_sponsor st
                    (Mongo.update_one (by_id oid) (set_note now (an_note req)) (sponsor st))),
            {| ok := true |}).
Proof. intros H. unfold add_note. rewrite H. reflexivity. Qed.

(** C2, as worded, fails for a well-formed identifier that matches no
    sponsor: both handlers answer [ok] and raise nothing. *)
Lemma C2_absent_sponsor_counterexample :
  hex24 "0123456789abcdef01234567" = Some "0123456789abcdef01234567"
  /\ Mongo.find_one (by_id "0123456789abcdef01234567") (sponsor sample_store) = None
  /\ update_status hex24 (Some sample_store) 1000
       {| us_sponsor_id := "0123456789abcdef01234567"; us_status := Confirmed |}
     = Return (Some sample_store, {| ok := true |})
  /\ add_note hex24 (Some sample_store) 1000
       {| an_sponsor_id := "0123456789abcdef01234567"; an_note := "called" |}
     = Return (Some sample_store, {| ok := true |})
  /\ (forall e, update_status hex24 (Some sample_store) 1000
                  {| us_sponsor_id := "0123456789abcdef01234567"; us_status := Confirmed |}
                <> Raise e)
  /\ (forall e, add_note hex24 (Some sample_store) 1000
                  {| an_sponsor_id := "0123456789abcdef01234567"; an_note := "called" |}
                <> Raise e).
Proof.
  assert (Hfind : Mongo.find_one (by_id "0123456789abcdef01234567") (sponsor sample_store) = None)
    by (vm_compute; reflexivity).
  assert (Hs : update_status hex24 (Some sample_store) 1000
                 {| us_sponsor_id := "0123456789abcdef01234567"; us_status := Confirmed |}
               = Return (Some sample_store, {| ok := true |})).
  { rewrite (update_status_parsed hex24 _ _ _ "0123456789abcdef01234567") by reflexivity.
    rewrite update_one_no_match by exact Hfind. reflexivity. }
  assert (Hn : add_note hex24 (Some sample_store) 1000
                 {| an_sponsor_id := "0123456789abcdef01234567"; an_note := "called" |}
               = Return (Some sample_store, {| ok := true |})).
  { rewrite (add_note_parsed hex24 _ _ _ "0123456789abcdef01234567") by reflexivity.
    rewrite update_one_no_match by exact Hfind. reflexivity. }
  repeat split; try assumption.
  - intros e. rewrite Hs. discriminate.
  - intros e. rewrite Hn. discriminate.
Qed.

(** C2 (amended): with the store configured, [update_status] and
    [add_note] fail with the invalid-identifier error (HTTP 400) when the
    id is malformed; for a well-formed id that matches no sponsor they
    answer [ok] and leave the store as it was, so that the malformed id
    and the absent sponsor remain distinguishable outcomes; only when a
    sponsor matches is its status set together with the update
    timestamp. *)
Theorem C2_update_outcomes (ObjectId : string -> option string) (st : Store) (now : Z)
    (sid : string) (s : Status) (note : string) :
  (ObjectId sid = None ->
     update_status ObjectId (Some st) now {| us_sponsor_id := sid; us_status := s |}
       = Raise (HTTPException 400 "Invalid sponsor id")
     /\ add_note ObjectId (Some st) now {| an_sponsor_id := sid; an_note := note |}
       = Raise (HTTPException 400 "Invalid sponsor id"))
  /\ (forall oid, ObjectId sid = Some oid ->
        Mongo.find_one (by_id oid) (sponsor st) = None ->
        update_status ObjectId (Some st) now {| us_sponsor_id := sid; us_status := s |}
          = Return (Some st, {| ok := true |})
        /\ add_note ObjectId (Some st) now {| an_sponsor_id := sid; an_note := note |}
          = Return (Some st, {| ok := true |})
        /\ Return (Some st, {| ok := true |})
           <> (Raise (HTTPException 400 "Invalid sponsor id")
                : result (option Store * OkResponse)))
  /\ (forall oid d, ObjectId sid = Some oid ->
        Mongo.find_one (by_id oid) (sponsor st) = Some d ->
        exists st',
          update_status ObjectId (Some st) now {| us_sponsor_id := sid; us_status := s |}
            = Return (Some st', {| ok := true |})
          /\ Mongo.find_one (by_id oid) (sponsor st') = Some (set_status now s d)
          /\ set_status now s d !! "status" = Some (VStr (status_str s))
          /\ set_status now s d !! "updated_at" = Some (VTime now)).
Proof.
  split; [| split].
  - intros Hid. unfold update_status, add_note. simpl. rewrite Hid. split; reflexivity.
  - intros oid Hid Hfind.
    rewrite (update_status_parsed ObjectId _ _ _ oid), (add_note_parsed ObjectId _ _ _ oid)
      by exact Hid.
    rewrite !update_one_no_match by exact Hfind. rewrite with_sponsor_same.
    repeat split; discriminate.
  - intros oid d Hid Hfind. eexists. split.
    + apply update_status_parsed. exact Hid.
    + split; [| split].
      * simpl. apply (find_one_update_one (by_id oid) (set_status now s)).
        -- intros x Hx. by rewrite by_id_set_status.
        -- exact Hfind.
      * unfold set_status. rewrite lookup_insert_ne by done. apply lookup_insert_eq.
      * unfold set_status. apply lookup_insert_eq.
Qed.

(** Without a configured store [update_status] reports it, before it
    looks at the identifier; [add_note] parses the identifier first and
    then fails on the missing handle. *)
Example update_without_store :
  update_status hex24 None 1000 {| us_sponsor_id := "not-an-id"; us_status := Pending |}
  = Raise (HTTPException 500 "Database not configured")
  /\ add_note hex24 None 1000 {| an_sponsor_id := "not-an-id"; an_note := "called" |}
     = Raise (HTTPException 400 "Invalid sponsor id")
  /\ add_note hex24 None 1000
       {| an_sponsor_id := "0123456789abcdef01234567"; an_note := "called" |}
     = Raise TypeError.
Proof. repeat split; reflexivity. Qed.

Lemma C2_update_outcomes_witness :
  update_status hex24 (Some sample_store) 1000
    {| us_sponsor_id := "not-an-id"; us_status := Confirmed |}
  = Raise (HTTPException 400 "Invalid sponsor id")
  /\ update_status hex24 (Some sample_store) 1000
       {| us_sponsor_id := "0123456789abcdef01234567"; us_status := Confirmed |}
     = Return (Some sample_store, {| ok := true |})
  /\ exists st',
       update_status hex24 (Some sample_store) 1000
         {| us_sponsor_id := "bbbbbbbbbbbbbbbbbbbbbbbb"; us_status := Confirmed |}
       = Return (Some st', {| ok := true |})
       /\ Mongo.find_one (by_id "bbbbbbbbbbbbbbbbbbbbbbbb") (sponsor st')
          = Some (set_status 1000 Confirmed
                    (sample_sponsor "bbbbbbbbbbbbbbbbbbbbbbbb" "River Bank Credit" "Finance")).
Proof.
  split; [| split].
  - destruct (C2_update_outcomes hex24 sample_store 1000 "not-an-id" Confirmed "called")
      as (H & _ & _).
    destruct (H eq_refl) as [H1 _]. exact H1.
  - destruct (C2_update_outcomes hex24 sample_store 1000 "0123456789abcdef01234567"
                Confirmed "called") as (_ & H & _).
    destruct (H "0123456789abcdef01234567" eq_refl ltac:(vm_compute; reflexivity)) as [H1 _].
    exact H1.
  - destruct (C2_update_outcomes hex24 sample_store 1000 "bbbbbbbbbbbbbbbbbbbbbbbb"
                Confirmed "called") as (_ & _ & H).
    destruct (H "bbbbbbbbbbbbbbbbbbbbbbbb"
                (sample_sponsor "bbbbbbbbbbbbbbbbbbbbbbbb" "River Bank Credit" "Finance")
                eq_refl ltac:(vm_compute; reflexivity)) as (st' & H1 & H2 & _).
    exists st'. split; assumption.
Defined.

(** The first matching document is replaced in place; every other
    position of the collection is left as it was. *)
Lemma update_one_at (filt : doc -> bool) (upd : doc -> doc) (c : list doc) (d : doc) :
  Mongo.find_one filt c = Some d ->
  exists i : nat, c !! i = Some d /\ Mongo.update_one filt upd c = <[i := upd d]> c.
Proof.
  unfold Mongo.find_one. induction c as [| x c IH]; simpl; [discriminate |].
  destruct (filt x) eqn:E.
  - intros [= ->]. exists 0%nat. split; reflexivity.
  - intros H. destruct (IH H) as (i & Hi & Hu). exists (S i). split; [exact Hi |].
    simpl. by rewrite Hu.
Qed.

(** What one [add_note] call on an existing sponsor does to the store. *)
Lemma add_note_effect (ObjectId : string -> option string) (st : Store) (now : Z)
    (sid note oid : string) (d : doc) :
  ObjectId sid = Some oid ->
  Mongo.find_one (by_id oid) (sponsor st) = Some d ->
  add_note ObjectId (Some st) now {| an_sponsor_id := sid; an_note := note |}
  = Return (Some (with_sponsor st (Mongo.update_one (by_id oid) (set_note now note) (sponsor st))),
            {| ok := true |})
  /\ Mongo.find_one (by_id oid) (Mongo.update_one (by_id oid) (set_note now note) (sponsor st))
     = Some (set_note now note d).
Proof.
  intros Hid Hfind. split.
  - by apply add_note_parsed.
  - apply find_one_update_one; [| exact Hfind].
    intros x Hx. by rewrite by_id_set_note.
Qed.

(** C9: [add_note] on an existing sponsor sets the single notes field to
    the supplied note (a later note replaces an earlier one) and sets the
    timestamp; every other field of that document, every other document
    and every other collection stay as they were. *)
Theorem C9_add_note_frame (ObjectId : string -> option string) (st : Store) (now : Z)
    (sid note oid : string) (d : doc) :
  ObjectId sid = Some oid ->
  Mongo.find_one (by_id oid) (sponsor st) = Some d ->
  exists (st' : Store) (d' : doc),
    add_note ObjectId (Some st) now {| an_sponsor_id := sid; an_note := note |}
      = Return (Some st', {| ok := true |})
    /\ Mongo.find_one (by_id oid) (sponsor st') = Some d'
    /\ d' !! "notes" = Some (VStr note)
    /\ d' !! "updated_at" = Some (VTime now)
    /\ (forall k : string, k <> "notes" -> k <> "updated_at" -> d' !! k = d !! k)
    /\ Forall (fun k : string => d' !! k = d !! k) other_sponsor_fields
    /\ (exists i : nat, sponsor st !! i = Some d /\ sponsor st' = <[i := d']> (sponsor st))
    /\ length (sponsor st') = length (sponsor st)
    /\ (forall oid', oid' <> oid ->
          Mongo.find_one (by_id oid') (sponsor st') = Mongo.find_one (by_id oid') (sponsor st))
    /\ proposal st' = proposal st
    /\ interaction st' = interaction st
    /\ followup st' = followup st
    /\ (forall (now2 : Z) (note2 : string),
          exists (st'' : Store) (d'' : doc),
            add_note ObjectId (Some st') now2 {| an_sponsor_id := sid; an_note := note2 |}
              = Return (Some st'', {| ok := true |})
            /\ Mongo.find_one (by_id oid) (sponsor st'') = Some d''
            /\ d'' !! "notes" = Some (VStr note2)).
Proof.
  intros Hid Hfind.
  destruct (add_note_effect ObjectId st now sid note oid d Hid Hfind) as [Hrun Hfound].
  assert (Hframe : forall k : string, k <> "notes" -> k <> "updated_at" ->
                                      set_note now note d !! k = d !! k).
  { intros k H1 H2. unfold set_note. by rewrite !lookup_insert_ne. }
  eexists _, (set_note now note d). split; [exact Hrun |].
  split; [exact Hfound |].
  split; [unfold set_note; rewrite lookup_insert_ne by done; apply lookup_insert_eq |].
  split; [unfold set_note; apply lookup_insert_eq |].
  split; [exact Hframe |].
  split; [unfold other_sponsor_fields; repeat constructor; by apply Hframe |].
  split; [simpl; by apply update_one_at |].
  split; [simpl; apply update_one_length |].
  split.
  { intros oid' Hne. simpl. apply find_one_update_one_other.
    - intros x Hx. by apply (by_id_disjoint oid oid').
    - intros x. apply by_id_set_note. }
  split; [reflexivity |]. split; [reflexivity |]. split; [reflexivity |].
  intros now2 note2.
  destruct (add_note_effect ObjectId
              (with_sponsor st (Mongo.update_one (by_id oid) (set_note now note) (sponsor st)))
              now2 sid note2 oid (set_note now note d) Hid Hfound) as [Hrun2 Hfound2].
  eexists _, _. split; [exact Hrun2 |]. split; [exact Hfound2 |].
  unfold set_note. rewrite lookup_insert_ne by done. apply lookup_insert_eq.
Qed.

Lemma C9_add_note_frame_witness :
  exists (st' : Store) (d' : doc),
    add_note hex24 (Some sample_store) 1000
      {| an_sponsor_id := "bbbbbbbbbbbbbbbbbbbbbbbb"; an_note := "called on Monday" |}
      = Return (Some st', {| ok := true |})
    /\ Mongo.find_one (by_id "bbbbbbbbbbbbbbbbbbbbbbbb") (sponsor st') = Some d'
    /\ d' !! "notes" = Some (VStr "called on Monday")
    /\ d' !! "name" = Some (VStr "River Bank Credit").
Proof.
  destruct (C9_add_note_frame hex24 sample_store 1000 "bbbbbbbbbbbbbbbbbbbbbbbb"
              "called on Monday" "bbbbbbbbbbbbbbbbbbbbbbbb"
              (sample_sponsor "bbbbbbbbbbbbbbbbbbbbbbbb" "River Bank Credit" "Finance")
              eq_refl ltac:(vm_compute; reflexivity))
    as (st' & d' & Hrun & Hfound & Hnotes & _ & Hframe & _).
  exists st', d'. split; [exact Hrun |]. split; [exact Hfound |]. split; [exact Hnotes |].
  rewrite Hframe by discriminate. vm_compute. reflexivity.
Defined.

(** ** Dashboard *)

Section Dashboard.

Variable str_datetime : Z -> string.

(** With a store configured, the first truth test of the handle raises. *)
Lemma dashboard_overview_configured (st : Store) :
  dashboard_overview str_datetime (Some st) = Raise NotImplementedError.
Proof. reflexivity. Qed.

(** Without a store every test is false and no collection is read. *)
Lemma dashboard_overview_unavailable :
  dashboard_overview str_datetime None
  = Return {| counts := <["declined" := 0%nat]>
                          (<["confirmed" := 0%nat]>
                             (<["pending" := 0%nat]>
                                (<["in_discussion" := 0%nat]>
                                   (<["contacted" := 0%nat]>
                                      (<["new" := 0%nat]> ∅)))));
              upcoming_followups := [] |}.
Proof. reflexivity. Qed.

End Dashboard.

(** C6: [dashboard_overview] decides between the store and the zero
    overview by the truth value of the database handle.  With a store
    configured that test raises [NotImplementedError] before anything is
    counted, so no overview is returned; without a store the overview
    maps each of the six status values, and nothing else, to 0 and lists
    no follow-up. *)
Theorem C6_dashboard_overview (str_datetime : Z -> string) :
  (forall st : Store, dashboard_overview str_datetime (Some st) = Raise NotImplementedError)
  /\ dashboard_overview str_datetime (Some followup_store) = Raise NotImplementedError
  /\ exists ov : Overview,
       dashboard_overview str_datetime None = Return ov
       /\ dom (counts ov) = list_to_set statuses
       /\ size (counts ov) = 6%nat
       /\ Forall (fun s => counts ov !! s = Some 0%nat) statuses
       /\ upcoming_followups ov = [].
Proof.
  split; [apply dashboard_overview_configured |].
  split; [apply dashboard_overview_configured |].
  eexists. split; [apply dashboard_overview_unavailable |]. cbn [counts upcoming_followups].
  split; [| split; [| split; [| reflexivity]]].
  - rewrite !dom_insert_L, dom_empty_L. unfold statuses. simpl. set_solver.
  - rewrite !map_size_insert_None, map_size_empty; [reflexivity | by simplify_map_eq ..].
  - unfold statuses. repeat constructor; by simplify_map_eq.
Qed.

(** ** Outreach email *)

Section Outreach.

Variable ObjectId : string -> option string.

(** With a store configured, the truth test of the handle raises before
    the sponsor is looked up. *)
Lemma outreach_configured (st : Store) (req : GenerateEmailRequest) :
  generate_outreach_email ObjectId (Some st) req = Raise NotImplementedError.
Proof. reflexivity. Qed.

(** Without a store no sponsor is looked up. *)
Lemma outreach_unavailable (req : GenerateEmailRequest) :
  generate_outreach_email ObjectId None req = Return fallback_email.
Proof. reflexivity. Qed.

Lemma outreach_tone (db : option Store) (req : GenerateEmailRequest) (t : Tone) :
  generate_outreach_email ObjectId db (set_tone req t)
  = generate_outreach_email ObjectId db req.
Proof. reflexivity. Qed.

End Outreach.

(** C7: [generate_outreach_email] looks a sponsor up only after testing
    the truth value of the database handle.  With a store configured
    that test raises [NotImplementedError], whether or not the sponsor_id
    matches a stored sponsor; without a store the composer returns the
    subject with the "Partner" placeholder and the body with the generic
    industry phrase.  The tone of the request never changes the outcome. *)
Theorem C7_outreach_unknown_sponsor (ObjectId : string -> option string)
    (req : GenerateEmailRequest) :
  (forall st : Store, generate_outreach_email ObjectId (Some st) req = Raise NotImplementedError)
  /\ generate_outreach_email hex24 (Some sample_store)
       {| ge_sponsor_id := "0123456789abcdef01234567"; ge_proposal_id := None;
          ge_tone := Friendly |}
     = Raise NotImplementedError
  /\ (generate_outreach_email ObjectId None req = Return fallback_email
      /\ subject fallback_email = email_subject "Partner"
      /\ body fallback_email = email_body "Partner" "your industry")
  /\ (forall (db : option Store) (t : Tone),
        generate_outreach_email ObjectId db (set_tone req t)
        = generate_outreach_email ObjectId db req)
  /\ (forall (db : option Store) (t1 t2 : Tone),
        generate_outreach_email ObjectId db (set_tone req t1)
        = generate_outreach_email ObjectId db (set_tone req t2)).
Proof.
  split; [intros st; apply outreach_configured |].
  split; [apply outreach_configured |].
  split; [split; [apply outreach_unavailable | split; reflexivity] |].
  split.
  - intros db t. apply outreach_tone.
  - intros db t1 t2. by rewrite !outreach_tone.
Qed.

(** C10: a malformed sponsor_id makes [update_status] and [add_note]
    fail with the invalid-identifier error.  The email composer never
    reaches the lookup that would swallow it: with a store configured the
    truth test of the handle raises [NotImplementedError], and without a
    store it returns the fallback reply without parsing the identifier. *)
Theorem C10_outreach_malformed_id (ObjectId : string -> option string) (db : option Store)
    (st : Store) (now : Z) (req : GenerateEmailRequest) (s : Status) (note : string) :
  ObjectId (ge_sponsor_id req) = None ->
  generate_outreach_email ObjectId (Some st) req = Raise NotImplementedError
  /\ generate_outreach_email ObjectId None req = Return fallback_email
  /\ update_status ObjectId (Some st) now {| us_sponsor_id := ge_sponsor_id req; us_status := s |}
     = Raise (HTTPException 400 "Invalid sponsor id")
  /\ add_note ObjectId db now {| an_sponsor_id := ge_sponsor_id req; an_note := note |}
     = Raise (HTTPException 400 "Invalid sponsor id").
Proof.
  intros Hid.
  split; [apply outreach_configured |]. split; [apply outreach_unavailable |]. split.
  - unfold update_status. simpl. by rewrite Hid.
  - unfold add_note. simpl. by rewrite Hid.
Qed.

Lemma C10_outreach_malformed_id_witness :
  generate_outreach_email hex24 (Some sample_store)
    {| ge_sponsor_id := "not-an-id"; ge_proposal_id := None; ge_tone := Professional |}
  = Raise NotImplementedError
  /\ add_note hex24 (Some sample_store) 1000 {| an_sponsor_id := "not-an-id"; an_note := "called" |}
     = Raise (HTTPException 400 "Invalid sponsor id").
Proof.
  destruct (C10_outreach_malformed_id hex24 (Some sample_store) sample_store 1000
              {| ge_sponsor_id := "not-an-id"; ge_proposal_id := None; ge_tone := Professional |}
              Confirmed "called" eq_refl) as (H1 & _ & _ & H2).
  split; assumption.
Defined.

(** ** Proposal generation *)

Lemma build_proposal_returns (inp : ProposalInput) (ts : list BenefitTier) :
  default_tiers inp = Return ts ->
  build_proposal inp
  = Return {| p_title := pi_title inp;
              p_description := pi_description inp;
              p_date := pi_date inp;
              p_location := pi_location inp;
              audience_summary := synthesize_audience_summary inp;
              value_proposition := value_points inp;
              tiers := ts;
              p_objectives := Py.list_or (objectives inp) [] |}.
Proof. intros E. unfold build_proposal. rewrite E. reflexivity. Qed.

Lemma build_proposal_raises (inp : ProposalInput) (e : exn) :
  build_proposal inp = Raise e -> e = OverflowError.
Proof.
  unfold build_proposal. destruct (default_tiers inp) as [ts | e'] eqn:E; [discriminate |].
  cbn [bind]. intros [= <-]. by destruct (default_tiers_raises inp e' E).
Qed.

Section Generate.

Variable create_document :
  option Store -> string -> Proposal -> result (option Store * string).

(** A returning call returns the proposal built from the input. *)
Lemma generate_proposal_returns (db db' : option Store) (inp : ProposalInput) (p : Proposal) :
  generate_proposal create_document db inp = Return (db', p) ->
  build_proposal inp = Return p
  /\ exists id, create_document db "proposal" p = Return (db', id).
Proof.
  unfold generate_proposal.
  destruct (build_proposal inp) as [p0 |]; cbn [bind]; [| discriminate].
  destruct (create_document db "proposal" p0) as [[d i] |] eqn:E; cbn [bind]; [| discriminate].
  intros [= <- <-]. split; [reflexivity | by exists i].
Qed.

Lemma generate_proposal_persisted (db db' : option Store) (inp : ProposalInput) (p : Proposal)
    (id : string) :
  build_proposal inp = Return p ->
  create_document db "proposal" p = Return (db', id) ->
  generate_proposal create_document db inp = Return (db', p).
Proof. intros Hp Hc. unfold generate_proposal. rewrite Hp. cbn [bind]. by rewrite Hc. Qed.

Lemma generate_proposal_overflow (db : option Store) (inp : ProposalInput) (e : exn) :
  build_proposal inp = Raise e ->
  generate_proposal create_document db inp = Raise OverflowError.
Proof.
  intros Hp. pose proof (build_proposal_raises inp e Hp) as ->.
  unfold generate_proposal. by rewrite Hp.
Qed.

End Generate.

(** C8: the proposal returned by [generate_proposal] is a function of
    the input alone: two returning calls with the same input, on whatever
    store states and with whatever persistence, return the same proposal,
    built from the input's texts, the fixed value points and the three
    priced tiers.  The call returns whenever the audience size is in the
    float range and the snapshot can be persisted; an audience size
    beyond the float range raises [OverflowError] whatever the store. *)
Theorem C8_generate_proposal_deterministic
    (create_document create_document' :
       option Store -> string -> Proposal -> result (option Store * string))
    (inp : ProposalInput) :
  (forall (db1 db2 db1' db2' : option Store) (p1 p2 : Proposal),
     generate_proposal create_document db1 inp = Return (db1', p1) ->
     generate_proposal create_document' db2 inp = Return (db2', p2) ->
     p1 = p2
     /\ build_proposal inp = Return p1
     /\ audience_summary p1 = synthesize_audience_summary inp
     /\ value_proposition p1 = value_points inp
     /\ map tier_name (tiers p1) = ["Bronze"; "Silver"; "Gold"]
     /\ tier_prices inp = Return (map price (tiers p1))
     /\ default_tiers inp = Return (tiers p1))
  /\ (Z.abs (priced_audience inp) < 2 ^ 1023 ->
      exists p : Proposal,
        build_proposal inp = Return p
        /\ forall db db' id,
             create_document db "proposal" p = Return (db', id) ->
             generate_proposal create_document db inp = Return (db', p))
  /\ (forall e : exn,
        build_proposal inp = Raise e ->
        e = OverflowError
        /\ forall db, generate_proposal create_document db inp = Raise OverflowError).
Proof.
  split; [| split].
  - intros db1 db2 db1' db2' p1 p2 H1 H2.
    destruct (generate_proposal_returns _ _ _ _ _ H1) as (B1 & _).
    destruct (generate_proposal_returns _ _ _ _ _ H2) as (B2 & _).
    assert (E : p1 = p2) by congruence. split; [exact E |]. split; [exact B1 |].
    destruct (default_tiers inp) as [ts |] eqn:Et.
    + rewrite (build_proposal_returns inp ts Et) in B1. injection B1 as <-.
      cbn [audience_summary value_proposition tiers].
      destruct (default_tiers_shape inp ts Et) as (Hn & _ & _).
      split; [reflexivity |]. split; [reflexivity |]. split; [exact Hn |].
      split; [| reflexivity]. unfold tier_prices. by rewrite Et.
    + exfalso. revert B1. unfold build_proposal. rewrite Et. discriminate.
  - intros Hb. destruct (of_int_returns _ Hb) as (q & Hq).
    destruct (default_tiers_returns inp _ Hq) as (ts & Hts).
    eexists. split; [apply (build_proposal_returns inp ts Hts) |].
    intros db db' id Hc. eapply generate_proposal_persisted; [| exact Hc].
    apply (build_proposal_returns inp ts Hts).
  - intros e He. split; [by apply (build_proposal_raises inp e) |].
    intros db. by apply (generate_proposal_overflow _ _ _ e).
Qed.

Lemma C8_generate_proposal_deterministic_witness :
  generate_proposal sample_create_document (Some empty_store) (sample_input (Some 2000%Z))
    = Return (store_after 1 sample_proposal, sample_proposal)
  /\ generate_proposal sample_create_document (store_after 1 sample_proposal)
       (sample_input (Some 2000%Z))
    = Return (store_after 2 sample_proposal, sample_proposal)
  /\ build_proposal (sample_input (Some 2000%Z)) = Return sample_proposal.
Proof.
  split; [vm_compute; reflexivity |]. split; [vm_compute; reflexivity |].
  destruct (C8_generate_proposal_deterministic sample_create_document sample_create_document
              (sample_input (Some 2000%Z))) as (H & _).
  destruct (H (Some empty_store) (store_after 1 sample_proposal)
              (store_after 1 sample_proposal) (store_after 2 sample_proposal)
              sample_proposal sample_proposal) as (_ & HB & _).
  - vm_compute. reflexivity.
  - vm_compute. reflexivity.
  - exact HB.
Defined.

(** Without a store the sample persistence raises and no proposal is
    returned; an audience size beyond the float range raises before the
    store is touched. *)
Example generate_proposal_without_store :
  generate_proposal sample_create_document None (sample_input (Some 2000%Z))
  = Raise (Exception "Database not available").
Proof. vm_compute. reflexivity. Qed.

Example generate_proposal_overflow_run :
  generate_proposal sample_create_document (Some empty_store) (sample_input (Some (10 ^ 400)%Z))
  = Raise OverflowError.
Proof. vm_compute. reflexivity. Qed.

(** * Further properties *)

(** ** Price computation *)

Local Open Scope Z_scope.

(** X1: [default_tiers] returns three tiers for every audience size
    below [2^1023] in absolute value, and whenever it raises, the
    exception is the [OverflowError] of the conversion of the audience
    size to a float. *)
Theorem X1_default_tiers_total (inp : ProposalInput) :
  (Z.abs (priced_audience inp) < 2 ^ 1023 ->
   exists ts, default_tiers inp = Return ts /\ length ts = 3%nat)
  /\ (forall e, default_tiers inp = Raise e ->
        e = OverflowError /\ F64.of_int (priced_audience inp) = Raise OverflowError).
Proof.
  split.
  - intros Hb. destruct (of_int_returns _ Hb) as (q & Hq).
    destruct (default_tiers_returns inp _ Hq) as (ts & Hts).
    exists ts. split; [exact Hts |]. by destruct (default_tiers_shape inp ts Hts) as (_ & Hl & _).
  - apply default_tiers_raises.
Qed.

Lemma X1_default_tiers_total_witness :
  exists ts, default_tiers (sample_input (Some (10 ^ 300))) = Return ts /\ length ts = 3%nat.
Proof.
  destruct (X1_default_tiers_total (sample_input (Some (10 ^ 300)))) as [H _].
  apply H. vm_compute. reflexivity.
Defined.




Local Open Scope string_scope.

(** ** Thousands grouping *)

Lemma group3_length_aux (n : nat) (l : list ascii) :
  (length l <= n)%nat ->
  length (Py.group3 l) = (length l + (length l - 1) / 3)%nat.
Proof.
  revert l. induction n as [| n IH]; intros l Hlen.
  - destruct l; [reflexivity | simpl in Hlen; lia].
  - destruct l as [| a [| b [| c [| d r]]]]; try reflexivity.
    change (Py.group3 (a :: b :: c :: d :: r))
      with (a :: b :: c :: ","%char :: Py.group3 (d :: r)).
    cbn [length]. rewrite (IH (d :: r)) by (simpl in Hlen |- *; lia).
    cbn [length].
    replace (S (S (S (S (length r)))) - 1)%nat with (S (length r) - 1 + 1 * 3)%nat by lia.
    rewrite Nat.div_add by lia. lia.
Qed.

Lemma group3_comma_aux (n : nat) (l : list ascii) (i : nat) :
  (length l <= n)%nat -> forallb no_comma l = true ->
  (i < length (Py.group3 l))%nat ->
  (Py.group3 l !! i = Some ","%char <-> (i mod 4 = 3)%nat).
Proof.
  revert l i. induction n as [| n IH]; intros l i Hlen Hall Hi.
  - destruct l; simpl in *; lia.
  - assert (Hshort : forall k : list ascii,
               (length k <= 3)%nat -> forallb no_comma k = true -> (i < length k)%nat ->
               (k !! i = Some ","%char <-> (i mod 4 = 3)%nat)).
    { intros k Hk Hall' Hi'. split.
      - intros Hc. exfalso. rewrite forallb_forall in Hall'.
        assert (Hin : In ","%char k) by (apply list_elem_of_In, list_elem_of_lookup; eauto).
        specialize (Hall' _ Hin). discriminate Hall'.
      - intros Hm. exfalso. rewrite Nat.mod_small in Hm by lia. lia. }
    destruct l as [| a [| b [| c [| d r]]]];
      try (apply Hshort; [simpl; lia | exact Hall | exact Hi]).
    change (Py.group3 (a :: b :: c :: d :: r))
      with (a :: b :: c :: ","%char :: Py.group3 (d :: r)) in Hi |- *.
    change (forallb no_comma (a :: b :: c :: d :: r))
      with (no_comma a && (no_comma b && (no_comma c && forallb no_comma (d :: r)))) in Hall.
    apply andb_prop in Hall as [Ha Hall]. apply andb_prop in Hall as [Hb Hall].
    apply andb_prop in Hall as [Hc Hall].
    destruct i as [| [| [| [| j]]]].
    + simpl. split; [intros [= ->]; discriminate Ha | discriminate].
    + simpl. split; [intros [= ->]; discriminate Hb | discriminate].
    + simpl. split; [intros [= ->]; discriminate Hc | discriminate].
    + simpl. split; reflexivity.
    + change ((a :: b :: c :: ","%char :: Py.group3 (d :: r)) !! S (S (S (S j))))
        with (Py.group3 (d :: r) !! j).
      assert (Hmod : (S (S (S (S j))) mod 4 = j mod 4)%nat).
      { replace (S (S (S (S j)))) with (j + 1 * 4)%nat by lia. apply Nat.Div0.mod_add. }
      rewrite Hmod.
      apply IH; [simpl in Hlen |- *; lia | exact Hall |].
      cbn [length] in Hi. lia.
Qed.

(** X3: in the grouped rendering of a non-negative integer, read from
    its right end, exactly the positions 3, 7, 11, ... hold a comma; the
    rendering of d digits is d + (d - 1) / 3 characters long, so a number
    below 1000 has no comma and the rendering never starts with one. *)
Theorem X3_fmt_thousands_commas (n : Z) :
  (0 <= n)%Z ->
  let out := list_ascii_of_string (Py.fmt_thousands n) in
  let d := length (list_ascii_of_string (Py.digits n)) in
  length out = (d + (d - 1) / 3)%nat
  /\ (forall i : nat, (i < length out)%nat ->
        (rev out !! i = Some ","%char <-> (i mod 4 = 3)%nat))
  /\ List.filter no_comma out = list_ascii_of_string (Py.digits n).
Proof.
  intros Hn out d.
  assert (E : out = rev (Py.group3 (rev (list_ascii_of_string (Py.digits n))))).
  { unfold out, Py.fmt_thousands. destruct (Z.ltb_spec n 0) as [? | _]; [lia |].
    apply list_ascii_of_string_of_list_ascii. }
  split; [| split].
  - rewrite E, length_rev.
    rewrite (group3_length_aux (length (rev (list_ascii_of_string (Py.digits n))))) by lia.
    rewrite length_rev. reflexivity.
  - intros i Hi. rewrite E in Hi |- *. rewrite rev_involutive. rewrite length_rev in Hi.
    apply (group3_comma_aux (length (rev (list_ascii_of_string (Py.digits n))))).
    + lia.
    + apply forallb_rev, uint_no_comma.
    + exact Hi.
  - by apply fmt_thousands_strip.
Qed.

Lemma X3_fmt_thousands_commas_witness :
  length (list_ascii_of_string (Py.fmt_thousands 1234567)) = 9%nat
  /\ rev (list_ascii_of_string (Py.fmt_thousands 1234567)) !! 3%nat = Some ","%char.
Proof.
  destruct (X3_fmt_thousands_commas 1234567 ltac:(lia)) as (H1 & H2 & _).
  split.
  - exact H1.
  - apply (H2 3%nat); [vm_compute; lia | reflexivity].
Defined.

(** ** Sponsor matching: limits, letter case, blank requests *)

Lemma find_sponsors_slice (req : FindSponsorsRequest) :
  find_sponsors req = Py.slice_to (all_matches req) (fs_limit req).
Proof. unfold find_sponsors. by rewrite fold_matches. Qed.

Lemma filter_bool_length {A} (f : A -> bool) (l : list A) :
  (length (List.filter f l) <= length l)%nat.
Proof. induction l as [| x l IH]; simpl; [lia |]. destruct (f x); simpl; lia. Qed.

Lemma all_matches_length (req : FindSponsorsRequest) : (length (all_matches req) <= 5)%nat.
Proof.
  unfold all_matches. rewrite length_map.
  apply (Nat.le_trans _ _ _ (filter_bool_length _ _)). reflexivity.
Qed.

(** X4: whatever the limit, the result is an initial part of the list
    of all matches and has at most 5 entries; a negative limit -k drops
    the last k matches instead of returning none, and a limit that reaches
    the number of matches returns them all. *)
Theorem X4_find_sponsors_any_limit (req : FindSponsorsRequest) :
  find_sponsors req `prefix_of` all_matches req
  /\ (length (find_sponsors req) <= 5)%nat
  /\ ((fs_limit req < 0)%Z ->
      find_sponsors req
      = take (length (all_matches req) - Z.to_nat (- fs_limit req)) (all_matches req))
  /\ ((Z.of_nat (length (all_matches req)) <= fs_limit req)%Z ->
      find_sponsors req = all_matches req).
Proof.
  rewrite find_sponsors_slice. unfold Py.slice_to.
  pose proof (all_matches_length req) as Hlen.
  split; [| split; [| split]].
  - destruct (fs_limit req <? 0)%Z; apply prefix_take.
  - destruct (fs_limit req <? 0)%Z; rewrite length_take; lia.
  - intros Hneg. destruct (Z.ltb_spec (fs_limit req) 0); [| lia].
    f_equal. lia.
  - intros Hbig. destruct (Z.ltb_spec (fs_limit req) 0); [lia |].
    apply take_ge. lia.
Qed.

Lemma X4_find_sponsors_any_limit_witness :
  map s_name (find_sponsors {| fs_location := "Springfield"; fs_industries := []; fs_limit := -2 |})
  = ["City Fitness"; "Brewed Awakenings"; "Green Wheels Bikes"]
  /\ find_sponsors {| fs_location := "Springfield"; fs_industries := ["tech"]; fs_limit := 10 |}
     = all_matches {| fs_location := "Springfield"; fs_industries := ["tech"]; fs_limit := 10 |}.
Proof.
  split.
  - destruct (X4_find_sponsors_any_limit
                {| fs_location := "Springfield"; fs_industries := []; fs_limit := -2 |})
      as (_ & _ & H & _).
    rewrite H by (simpl; lia). reflexivity.
  - destruct (X4_find_sponsors_any_limit
                {| fs_location := "Springfield"; fs_industries := ["tech"]; fs_limit := 10 |})
      as (_ & _ & _ & H).
    apply H. vm_compute. discriminate.
Defined.

Lemma industry_hit_lowered (req : FindSponsorsRequest) (b : Business) :
  industry_hit req b
  = negb (Py.list_truthy (Some (map Py.lower (fs_industries req))))
    || existsb (fun j => Py.contains j (Py.lower (b_industry b)))
         (map Py.lower (fs_industries req)).
Proof.
  unfold industry_hit. f_equal.
  - by destruct (fs_industries req).
  - induction (fs_industries req) as [| i l IH]; simpl; [reflexivity |]. by rewrite IH.
Qed.

Lemma filter_bool_ext {A} (f g : A -> bool) (l : list A) :
  (forall x, f x = g x) -> List.filter f l = List.filter g l.
Proof.
  intros H. induction l as [| x l IH]; simpl; [reflexivity |]. by rewrite H, IH.
Qed.

(** X5: matching ignores the letter case of the requested industries:
    two requests with the same location and limit whose industries agree
    once lower-cased return the same sponsors. *)
Theorem X5_find_sponsors_case_insensitive (req req' : FindSponsorsRequest) :
  fs_location req = fs_location req' ->
  fs_limit req = fs_limit req' ->
  map Py.lower (fs_industries req) = map Py.lower (fs_industries req') ->
  find_sponsors req = find_sponsors req'.
Proof.
  intros Hloc Hlim Hind. rewrite !find_sponsors_slice, Hlim. f_equal.
  unfold all_matches.
  rewrite (filter_bool_ext (industry_hit req) (industry_hit req')).
  - apply map_ext. intros b. unfold candidate. by rewrite Hloc.
  - intros b. by rewrite !industry_hit_lowered, Hind.
Qed.

Lemma X5_find_sponsors_case_insensitive_witness :
  find_sponsors {| fs_location := "Springfield"; fs_industries := ["FINANCE"; "Retail"]; fs_limit := 3 |}
  = find_sponsors {| fs_location := "Springfield"; fs_industries := ["finance"; "rEtAiL"]; fs_limit := 3 |}.
Proof.
  apply X5_find_sponsors_case_insensitive; reflexivity.
Defined.

Lemma contains_empty (s : string) : Py.contains "" s = true.
Proof. by destruct s. Qed.

(** X6: a blank string among the requested industries matches every
    business, so the request returns the whole catalog, cut by the limit. *)
Theorem X6_blank_industry_matches_all (req : FindSponsorsRequest) :
  In "" (fs_industries req) ->
  all_matches req = map (candidate req) SEED_BUSINESSES
  /\ find_sponsors req = Py.slice_to (map (candidate req) SEED_BUSINESSES) (fs_limit req)
  /\ ((5 <= fs_limit req)%Z -> map s_name (find_sponsors req) = map b_name SEED_BUSINESSES).
Proof.
  intros Hin.
  assert (Hall : forall b, industry_hit req b = true).
  { intros b. unfold industry_hit. apply orb_true_iff. right.
    apply existsb_exists. exists "". split; [exact Hin | apply contains_empty]. }
  assert (E : all_matches req = map (candidate req) SEED_BUSINESSES).
  { unfold all_matches. f_equal.
    generalize SEED_BUSINESSES. intros l. induction l as [| b l IH]; simpl; [reflexivity |].
    by rewrite Hall, IH. }
  split; [exact E |]. split; [by rewrite find_sponsors_slice, E |].
  intros Hlim. rewrite find_sponsors_slice, E. unfold Py.slice_to.
  destruct (Z.ltb_spec (fs_limit req) 0); [lia |].
  rewrite take_ge by (simpl; lia). reflexivity.
Qed.

Lemma X6_blank_industry_matches_all_witness :
  map s_name (find_sponsors {| fs_location := "Springfield"; fs_industries := ["Mining"; ""];
                               fs_limit := 10 |})
  = map b_name SEED_BUSINESSES.
Proof.
  destruct (X6_blank_industry_matches_all
              {| fs_location := "Springfield"; fs_industries := ["Mining"; ""]; fs_limit := 10 |})
    as (_ & _ & H).
  - simpl. right. left. reflexivity.
  - apply H. simpl. lia.
Defined.

(** ** Sponsor matching: the candidates *)

Lemma lower_ascii_not_upper (c : ascii) : is_upper (Py.lower_ascii c) = false.
Proof. destruct c as [[] [] [] [] [] [] [] []]; reflexivity. Qed.

Lemma lower_ascii_not_space (c : ascii) : c <> " "%char -> Py.lower_ascii c <> " "%char.
Proof. destruct c as [[] [] [] [] [] [] [] []]; intros H; try discriminate; exact H. Qed.

Lemma remove_spaces_no_space (s : string) :
  Forall (fun c => c <> " "%char) (list_ascii_of_string (Py.remove_spaces s)).
Proof.
  induction s as [| c s IH]; simpl; [constructor |].
  destruct (Ascii.eqb_spec c " "); [exact IH |].
  simpl. by constructor.
Qed.

Lemma lower_clean (s : string) :
  Forall (fun c => c <> " "%char) (list_ascii_of_string s) ->
  Forall (fun c => c <> " "%char /\ is_upper c = false) (list_ascii_of_string (Py.lower s)).
Proof.
  induction s as [| c s IH]; simpl; intros H; [constructor |].
  inversion H as [| c' l Hc Hs]; subst. constructor.
  - split; [by apply lower_ascii_not_space | apply lower_ascii_not_upper].
  - by apply IH.
Qed.

Lemma map_sublist {A B} (f : A -> B) (l1 l2 : list A) :
  l1 `sublist_of` l2 -> map f l1 `sublist_of` map f l2.
Proof. intros H. induction H; simpl; by constructor. Qed.

Lemma filter_bool_sublist {A} (f g : A -> bool) (l : list A) :
  (forall x, f x = true -> g x = true) ->
  List.filter f l `sublist_of` List.filter g l.
Proof.
  intros H. induction l as [| x l IH]; simpl; [constructor |].
  destruct (f x) eqn:E.
  - rewrite (H _ E). by constructor.
  - destruct (g x); [by constructor | exact IH].
Qed.

Lemma slice_to_sublist {A} (l : list A) (k : Z) : Py.slice_to l k `sublist_of` l.
Proof. unfold Py.slice_to. destruct (k <? 0)%Z; apply sublist_take. Qed.

(** X7: every returned candidate carries the location of the request,
    the status new, the fixed phone number and no proposal, note or
    follow-up; the names come from the catalog in catalog order; and the
    email made for a business is info@<local>.com where <local>, the name
    without spaces in lower case, holds no space and no upper-case letter. *)
Theorem X7_candidates_shape (req : FindSponsorsRequest) :
  Forall (fun s => s_location s = fs_location req
                   /\ s_status s = New
                   /\ s_phone s = Some "(555) 123-4567"
                   /\ s_proposal_id s = None
                   /\ s_notes s = None
                   /\ s_next_follow_up s = None
                   /\ exists b, In b SEED_BUSINESSES /\ industry_hit req b = true
                                /\ s = candidate req b)
         (find_sponsors req)
  /\ map s_name (find_sponsors req) `sublist_of` map b_name SEED_BUSINESSES
  /\ (forall b : Business,
        s_email (candidate req b)
        = Some ("info@" ++ Py.lower (Py.remove_spaces (b_name b)) ++ ".com")
        /\ Forall (fun c => c <> " "%char /\ is_upper c = false)
             (list_ascii_of_string (Py.lower (Py.remove_spaces (b_name b))))).
Proof.
  split; [| split].
  - rewrite find_sponsors_slice. unfold Py.slice_to.
    assert (H : Forall (fun s => s_location s = fs_location req
                   /\ s_status s = New
                   /\ s_phone s = Some "(555) 123-4567"
                   /\ s_proposal_id s = None
                   /\ s_notes s = None
                   /\ s_next_follow_up s = None
                   /\ exists b, In b SEED_BUSINESSES /\ industry_hit req b = true
                                /\ s = candidate req b) (all_matches req)).
    { unfold all_matches. apply Forall_forall. intros s Hs.
      apply list_elem_of_In, in_map_iff in Hs as (b & <- & Hb).
      apply filter_In in Hb as [Hb Hhit].
      repeat split; try reflexivity. exists b. auto. }
    destruct (fs_limit req <? 0)%Z; by apply Forall_take.
  - rewrite find_sponsors_slice.
    transitivity (map s_name (all_matches req)).
    + apply map_sublist, slice_to_sublist.
    + unfold all_matches. rewrite map_map.
      rewrite (map_ext (fun x => s_name (candidate req x)) b_name) by reflexivity.
      apply map_sublist.
      apply (filter_bool_sublist (industry_hit req) (fun _ => true) SEED_BUSINESSES).
      reflexivity.
  - intros b. split; [reflexivity |].
    apply lower_clean, remove_spaces_no_space.
Qed.

(** X8: with a limit that does not cut the result (5 or more), asking
    for more industries never loses a sponsor: if the requested industries
    are not empty and all occur in a second request for the same location,
    the first result is a sub-list of the second. *)
Theorem X8_more_industries_more_matches (req req' : FindSponsorsRequest) :
  fs_location req = fs_location req' ->
  fs_industries req <> [] ->
  (forall i, In i (fs_industries req) -> In i (fs_industries req')) ->
  (5 <= fs_limit req)%Z -> (5 <= fs_limit req')%Z ->
  find_sponsors req `sublist_of` find_sponsors req'.
Proof.
  intros Hloc Hne Hsub Hl Hl'.
  assert (Hfull : forall r, (5 <= fs_limit r)%Z -> find_sponsors r = all_matches r).
  { intros r Hr. rewrite find_sponsors_slice. unfold Py.slice_to.
    destruct (Z.ltb_spec (fs_limit r) 0); [lia |].
    apply take_ge. pose proof (all_matches_length r). lia. }
  rewrite (Hfull req Hl), (Hfull req' Hl'). unfold all_matches.
  rewrite (map_ext (candidate req) (candidate req'))
    by (intros b; unfold candidate; by rewrite Hloc).
  apply map_sublist, filter_bool_sublist. intros b.
  unfold industry_hit. rewrite !orb_true_iff, !existsb_exists.
  intros [H | (i & Hi & Hc)].
  - destruct (fs_industries req); [contradiction | discriminate H].
  - right. exists i. split; [by apply Hsub | exact Hc].
Qed.

Lemma X8_more_industries_more_matches_witness :
  find_sponsors {| fs_location := "Springfield"; fs_industries := ["fin"]; fs_limit := 10 |}
  `sublist_of`
  find_sponsors {| fs_location := "Springfield"; fs_industries := ["tech"; "fin"]; fs_limit := 5 |}.
Proof.
  apply X8_more_industries_more_matches.
  - reflexivity.
  - discriminate.
  - simpl. intros i [<- | []]. right. left. reflexivity.
  - simpl. lia.
  - simpl. lia.
Defined.

(** With a limit that cuts, the same two requests are no longer
    comparable: the first match of each differs. *)
Example more_industries_cut_by_limit :
  map s_name (find_sponsors {| fs_location := "Springfield"; fs_industries := ["fin"];
                               fs_limit := 1 |}) = ["River Bank Credit"]
  /\ map s_name (find_sponsors {| fs_location := "Springfield"; fs_industries := ["tech"; "fin"];
                                  fs_limit := 1 |}) = ["Tech Hub Co-Work"].
Proof. split; reflexivity. Qed.

(** ** Status and note updates: invariants and composition *)

Lemma update_one_Forall2 (R : doc -> doc -> Prop) (filt : doc -> bool) (upd : doc -> doc)
    (c : list doc) :
  (forall d, R d d) -> (forall d, R d (upd d)) ->
  Forall2 R c (Mongo.update_one filt upd c).
Proof.
  intros Hrefl Hupd. induction c as [| d c IH]; simpl; [constructor |].
  destruct (filt d).
  - constructor; [apply Hupd |]. clear IH. induction c; constructor; auto.
  - constructor; [apply Hrefl | exact IH].
Qed.

Lemma update_one_twice (filt : doc -> bool) (u1 u2 : doc -> doc) (c : list doc) :
  (forall d, filt (u1 d) = filt d) ->
  Mongo.update_one filt u2 (Mongo.update_one filt u1 c)
  = Mongo.update_one filt (fun d => u2 (u1 d)) c.
Proof.
  intros Hkeep. induction c as [| d c IH]; simpl; [reflexivity |].
  destruct (filt d) eqn:E; simpl.
  - by rewrite Hkeep, E.
  - by rewrite E, IH.
Qed.

Lemma update_one_ext (filt : doc -> bool) (u u' : doc -> doc) (c : list doc) :
  (forall d, u d = u' d) -> Mongo.update_one filt u c = Mongo.update_one filt u' c.
Proof.
  intros H. induction c as [| d c IH]; simpl; [reflexivity |].
  destruct (filt d); [by rewrite H | by rewrite IH].
Qed.

Lemma with_sponsor_twice (st : Store) (c c' : list doc) :
  with_sponsor (with_sponsor st c) c' = with_sponsor st c'.
Proof. reflexivity. Qed.

Lemma same_outside_refl (fields : list string) (d : doc) : same_outside fields d d.
Proof. by intros k _. Qed.

Lemma same_outside_set_status (now : Z) (s : Status) (d : doc) :
  same_outside ["status"; "updated_at"] d (set_status now s d).
Proof.
  intros k Hk. unfold set_status.
  rewrite !lookup_insert_ne; [reflexivity | |]; intros <-; apply Hk; simpl; auto.
Qed.

Lemma same_outside_set_note (now : Z) (note : string) (d : doc) :
  same_outside ["notes"; "updated_at"] d (set_note now note d).
Proof.
  intros k Hk. unfold set_note.
  rewrite !lookup_insert_ne; [reflexivity | |]; intros <-; apply Hk; simpl; auto.
Qed.

(** X9: a call of [update_status] or [add_note] that returns never
    adds, removes or reorders sponsor documents: the collection keeps its
    length, each document keeps every field other than status (or notes)
    and updated_at, the identifier included, and the proposal, interaction
    and follow-up collections are left as they were. *)
Theorem X9_updates_keep_collection (ObjectId : string -> option string)
    (db db' : option Store) (now : Z) (sreq : UpdateStatusRequest) (nreq : AddNoteRequest)
    (r : OkResponse) :
  (update_status ObjectId db now sreq = Return (db', r) ->
     exists st st', db = Some st /\ db' = Some st' /\ r = {| ok := true |}
       /\ Forall2 (same_outside ["status"; "updated_at"]) (sponsor st) (sponsor st')
       /\ proposal st' = proposal st /\ interaction st' = interaction st
       /\ followup st' = followup st)
  /\ (add_note ObjectId db now nreq = Return (db', r) ->
     exists st st', db = Some st /\ db' = Some st' /\ r = {| ok := true |}
       /\ Forall2 (same_outside ["notes"; "updated_at"]) (sponsor st) (sponsor st')
       /\ proposal st' = proposal st /\ interaction st' = interaction st
       /\ followup st' = followup st).
Proof.
  split.
  - unfold update_status. destruct db as [st |]; [| discriminate].
    destruct (ObjectId (us_sponsor_id sreq)) as [oid |]; [| discriminate].
    intros [= <- <-]. eexists st, _. repeat split; try reflexivity. simpl.
    apply (update_one_Forall2 (same_outside ["status"; "updated_at"])).
    + apply same_outside_refl.
    + intros d. apply (same_outside_set_status now (us_status sreq) d).
  - unfold add_note.
    destruct (ObjectId (an_sponsor_id nreq)) as [oid |]; [| discriminate].
    destruct db as [st |]; [| discriminate].
    intros [= <- <-]. eexists st, _. repeat split; try reflexivity. simpl.
    apply (update_one_Forall2 (same_outside ["notes"; "updated_at"])).
    + apply same_outside_refl.
    + intros d. apply (same_outside_set_note now (an_note nreq) d).
Qed.

Lemma X9_updates_keep_collection_witness :
  Forall2 (same_outside ["status"; "updated_at"]) (sponsor sample_store)
    (Mongo.update_one (by_id "bbbbbbbbbbbbbbbbbbbbbbbb") (set_status 1000 Confirmed)
       (sponsor sample_store))
  /\ Forall2 (same_outside ["notes"; "updated_at"]) (sponsor sample_store)
    (Mongo.update_one (by_id "bbbbbbbbbbbbbbbbbbbbbbbb") (set_note 1000 "called")
       (sponsor sample_store)).
Proof.
  split.
  - destruct (X9_updates_keep_collection hex24 (Some sample_store)
                (Some (with_sponsor sample_store
                         (Mongo.update_one (by_id "bbbbbbbbbbbbbbbbbbbbbbbb")
                            (set_status 1000 Confirmed) (sponsor sample_store))))
                1000
                {| us_sponsor_id := "bbbbbbbbbbbbbbbbbbbbbbbb"; us_status := Confirmed |}
                {| an_sponsor_id := "bbbbbbbbbbbbbbbbbbbbbbbb"; an_note := "called" |}
                {| ok := true |}) as [H _].
    destruct (H eq_refl) as (st & st' & [= <-] & [= <-] & _ & HF & _). exact HF.
  - destruct (X9_updates_keep_collection hex24 (Some sample_store)
                (Some (with_sponsor sample_store
                         (Mongo.update_one (by_id "bbbbbbbbbbbbbbbbbbbbbbbb")
                            (set_note 1000 "called") (sponsor sample_store))))
                1000
                {| us_sponsor_id := "bbbbbbbbbbbbbbbbbbbbbbbb"; us_status := Confirmed |}
                {| an_sponsor_id := "bbbbbbbbbbbbbbbbbbbbbbbb"; an_note := "called" |}
                {| ok := true |}) as [_ H].
    destruct (H eq_refl) as (st & st' & [= <-] & [= <-] & _ & HF & _). exact HF.
Defined.

Lemma set_status_twice (now1 now2 : Z) (s1 s2 : Status) (d : doc) :
  set_status now2 s2 (set_status now1 s1 d) = set_status now2 s2 d.
Proof.
  unfold set_status. apply map_eq. intros k.
  rewrite !lookup_insert. repeat case_decide; congruence.
Qed.

Lemma set_note_set_status (t1 t2 : Z) (s : Status) (note : string) (d : doc) :
  set_note t2 note (set_status t1 s d) = set_status t2 s (set_note t1 note d).
Proof.
  unfold set_status, set_note. apply map_eq. intros k.
  rewrite !lookup_insert. repeat case_decide; congruence.
Qed.

(** X10: for one sponsor id, the last status update wins as a whole:
    two [update_status] calls in a row leave the store exactly as the
    second call alone would, whether or not a sponsor matches; so setting
    the same status again changes nothing but the timestamp. *)
Theorem X10_update_status_last_wins (ObjectId : string -> option string) (st : Store)
    (now1 now2 : Z) (sid oid : string) (s1 s2 : Status) :
  ObjectId sid = Some oid ->
  exists st1 st2 : Store,
    update_status ObjectId (Some st) now1 {| us_sponsor_id := sid; us_status := s1 |}
      = Return (Some st1, {| ok := true |})
    /\ update_status ObjectId (Some st1) now2 {| us_sponsor_id := sid; us_status := s2 |}
      = Return (Some st2, {| ok := true |})
    /\ update_status ObjectId (Some st) now2 {| us_sponsor_id := sid; us_status := s2 |}
      = Return (Some st2, {| ok := true |}).
Proof.
  intros Hid. eexists _, _. split; [| split].
  - apply update_status_parsed. exact Hid.
  - rewrite (update_status_parsed ObjectId _ _ _ oid) by exact Hid. reflexivity.
  - rewrite (update_status_parsed ObjectId _ _ _ oid) by exact Hid.
    assert (E : Mongo.update_one (by_id oid) (set_status now2 s2)
                  (Mongo.update_one (by_id oid) (set_status now1 s1) (sponsor st))
                = Mongo.update_one (by_id oid) (set_status now2 s2) (sponsor st)).
    { rewrite update_one_twice by (intros d; apply by_id_set_status).
      apply update_one_ext. intros d. apply set_status_twice. }
    simpl. rewrite E. reflexivity.
Qed.

Lemma X10_update_status_last_wins_witness :
  exists st1 st2 : Store,
    update_status hex24 (Some sample_store) 1000
      {| us_sponsor_id := "bbbbbbbbbbbbbbbbbbbbbbbb"; us_status := Contacted |}
      = Return (Some st1, {| ok := true |})
    /\ update_status hex24 (Some st1) 2000
      {| us_sponsor_id := "bbbbbbbbbbbbbbbbbbbbbbbb"; us_status := Declined |}
      = Return (Some st2, {| ok := true |})
    /\ update_status hex24 (Some sample_store) 2000
      {| us_sponsor_id := "bbbbbbbbbbbbbbbbbbbbbbbb"; us_status := Declined |}
      = Return (Some st2, {| ok := true |}).
Proof.
  apply (X10_update_status_last_wins hex24 sample_store 1000 2000 "bbbbbbbbbbbbbbbbbbbbbbbb"
           "bbbbbbbbbbbbbbbbbbbbbbbb" Contacted Declined).
  reflexivity.
Defined.

(** X11: a status update and a note update of the same sponsor do not
    interfere: done in either order, with the same two timestamps, they
    leave the same store, holding the new status, the new note and the
    later timestamp. *)
Theorem X11_status_and_note_commute (ObjectId : string -> option string) (st : Store)
    (t1 t2 : Z) (sid oid : string) (s : Status) (note : string) :
  ObjectId sid = Some oid ->
  exists sta stb st2 : Store,
    update_status ObjectId (Some st) t1 {| us_sponsor_id := sid; us_status := s |}
      = Return (Some sta, {| ok := true |})
    /\ add_note ObjectId (Some sta) t2 {| an_sponsor_id := sid; an_note := note |}
      = Return (Some st2, {| ok := true |})
    /\ add_note ObjectId (Some st) t1 {| an_sponsor_id := sid; an_note := note |}
      = Return (Some stb, {| ok := true |})
    /\ update_status ObjectId (Some stb) t2 {| us_sponsor_id := sid; us_status := s |}
      = Return (Some st2, {| ok := true |})
    /\ (forall d, Mongo.find_one (by_id oid) (sponsor st) = Some d ->
          exists d2, Mongo.find_one (by_id oid) (sponsor st2) = Some d2
            /\ d2 !! "status" = Some (VStr (status_str s))
            /\ d2 !! "notes" = Some (VStr note)
            /\ d2 !! "updated_at" = Some (VTime t2)).
Proof.
  intros Hid. eexists _, _, _. split; [| split; [| split; [| split]]].
  - apply update_status_parsed. exact Hid.
  - rewrite (add_note_parsed ObjectId _ _ _ oid) by exact Hid. reflexivity.
  - apply add_note_parsed. exact Hid.
  - rewrite (update_status_parsed ObjectId _ _ _ oid) by exact Hid.
    assert (E : Mongo.update_one (by_id oid) (set_status t2 s)
                  (Mongo.update_one (by_id oid) (set_note t1 note) (sponsor st))
                = Mongo.update_one (by_id oid) (set_note t2 note)
                    (Mongo.update_one (by_id oid) (set_status t1 s) (sponsor st))).
    { rewrite update_one_twice by (intros d; apply by_id_set_note).
      rewrite update_one_twice by (intros d; apply by_id_set_status).
      apply update_one_ext. intros d. symmetry. apply set_note_set_status. }
    simpl. rewrite E. reflexivity.
  - intros d Hd. simpl.
    rewrite update_one_twice by (intros x; apply by_id_set_status).
    exists (set_note t2 note (set_status t1 s d)). split; [| split; [| split]].
    + apply (find_one_update_one (by_id oid) (fun x => set_note t2 note (set_status t1 s x))).
      * intros x Hx. by rewrite by_id_set_note, by_id_set_status.
      * exact Hd.
    + unfold set_note, set_status. by simplify_map_eq.
    + unfold set_note. by simplify_map_eq.
    + unfold set_note. by simplify_map_eq.
Qed.

Lemma X11_status_and_note_commute_witness :
  exists sta stb st2 : Store,
    update_status hex24 (Some sample_store) 1000
      {| us_sponsor_id := "aaaaaaaaaaaaaaaaaaaaaaaa"; us_status := Pending |}
      = Return (Some sta, {| ok := true |})
    /\ add_note hex24 (Some sta) 2000
      {| an_sponsor_id := "aaaaaaaaaaaaaaaaaaaaaaaa"; an_note := "met at fair" |}
      = Return (Some st2, {| ok := true |})
    /\ add_note hex24 (Some sample_store) 1000
      {| an_sponsor_id := "aaaaaaaaaaaaaaaaaaaaaaaa"; an_note := "met at fair" |}
      = Return (Some stb, {| ok := true |})
    /\ update_status hex24 (Some stb) 2000
      {| us_sponsor_id := "aaaaaaaaaaaaaaaaaaaaaaaa"; us_status := Pending |}
      = Return (Some st2, {| ok := true |}).
Proof.
  destruct (X11_status_and_note_commute hex24 sample_store 1000 2000
              "aaaaaaaaaaaaaaaaaaaaaaaa" "aaaaaaaaaaaaaaaaaaaaaaaa" Pending "met at fair"
              eq_refl) as (sta & stb & st2 & H1 & H2 & H3 & H4 & _).
  exists sta, stb, st2. repeat split; assumption.
Defined.
